(** * VoiceDoc: the triage pipeline of [main.py] and the script of [app.py]

    A shallow embedding of the two Python files.  Python values decoded
    from JSON are a small inductive type, exceptions are an error monad,
    floats are IEEE binary64 values ([spec_float] at precision 53), and
    everything the program obtains from outside (the C library's
    trigonometric functions, the HTTP exchange, the speech recogniser, the
    language model, pandas' sorting permutation, the widgets of the page)
    is a field of one record, [world]. *)

From Stdlib Require Import ZArith List String Ascii Bool Lia.
From Stdlib Require Import Permutation Sorted.
From Stdlib Require Import Floats.SpecFloat.
Import ListNotations.

Set Warnings "-register-all".

Local Open Scope string_scope.
Local Open Scope list_scope.

(* ================================================================== *)
(** * Python values, exceptions and the error monad *)
(* ================================================================== *)

Module Py.

(** Binary64, the representation of a Python [float]. *)
Definition float64 : Type := spec_float.

Definition prec : Z := 53.
Definition emax : Z := 1024.

Definition fadd : float64 -> float64 -> float64 := SFadd prec emax.
Definition fsub : float64 -> float64 -> float64 := SFsub prec emax.
Definition fmul : float64 -> float64 -> float64 := SFmul prec emax.
Definition fdiv : float64 -> float64 -> float64 := SFdiv prec emax.
Definition fsqrt : float64 -> float64 := SFsqrt prec emax.

(** [float(n)] for an integer that fits: round to nearest even. *)
Definition of_Z (n : Z) : float64 := binary_normalize prec emax n 0 false.

Definition is_nan (x : float64) : bool :=
  match x with S754_nan => true | _ => false end.

Definition is_inf (x : float64) : bool :=
  match x with S754_infinity _ => true | _ => false end.

Definition is_finite (x : float64) : bool :=
  match x with S754_zero _ | S754_finite _ _ _ => true | _ => false end.

(** The values [response.json()] and the output parser's JSON decoder can
    produce.  A dict keeps its items in order; [dict_lookup] returns the
    first binding of a key. *)
Inductive pyval : Type :=
| PNone
| PBool (b : bool)
| PInt (n : Z)
| PFloat (x : float64)
| PStr (s : string)
| PList (l : list pyval)
| PDict (d : list (string * pyval)).

Fixpoint dict_lookup (k : string) (d : list (string * pyval)) : option pyval :=
  match d with
  | [] => None
  | (k', v) :: d' => if String.eqb k k' then Some v else dict_lookup k d'
  end.

Definition type_name (v : pyval) : string :=
  match v with
  | PNone => "NoneType"
  | PBool _ => "bool"
  | PInt _ => "int"
  | PFloat _ => "float"
  | PStr _ => "str"
  | PList _ => "list"
  | PDict _ => "dict"
  end.

(** Truth value of an object, as [if v:] tests it. *)
Definition truthy (v : pyval) : bool :=
  match v with
  | PNone => false
  | PBool b => b
  | PInt n => negb (Z.eqb n 0)
  | PFloat (S754_zero _) => false
  | PFloat _ => true
  | PStr s => negb (String.eqb s "")
  | PList l => match l with [] => false | _ => true end
  | PDict d => match d with [] => false | _ => true end
  end.

(** Exception classes that occur.  All of them derive from [Exception]. *)
Inductive exn_class : Type :=
| ValueError
| TypeError
| AttributeError
| OverflowError
| KeyError
| RequestException           (* requests.exceptions.RequestException *)
| HTTPError                  (* raised by raise_for_status *)
| ConnectionError
| Timeout
| RequestsJSONDecodeError    (* requests.exceptions.JSONDecodeError *)
| UnknownValueError          (* speech_recognition.UnknownValueError *)
| RequestError               (* speech_recognition.RequestError *)
| OutputParserException      (* langchain's parser failure *)
| OtherException.

Record exn : Type := Exn { exn_cls : exn_class; exn_msg : string }.

(** [isinstance(e, requests.exceptions.RequestException)] *)
Definition is_RequestException (e : exn) : bool :=
  match exn_cls e with
  | RequestException | HTTPError | ConnectionError | Timeout
  | RequestsJSONDecodeError => true
  | _ => false
  end.

(** [isinstance(e, ValueError)] for the classes above. *)
Definition is_ValueError (e : exn) : bool :=
  match exn_cls e with ValueError => true | _ => false end.

(** A computation either returns or raises. *)
Inductive result (A : Type) : Type :=
| Return (a : A)
| Raise (e : exn).
Arguments Return {A} a.
Arguments Raise {A} e.

Definition bind {A B : Type} (m : result A) (k : A -> result B) : result B :=
  match m with
  | Return a => k a
  | Raise e => Raise e
  end.

(** [obj.get(key, default)]: only a dict has the method. *)
Definition py_get (obj : pyval) (key : string) (default : pyval) : result pyval :=
  match obj with
  | PDict d =>
      Return (match dict_lookup key d with Some v => v | None => default end)
  | _ =>
      Raise (Exn AttributeError
               ("'" ++ type_name obj ++ "' object has no attribute 'get'"))
  end.

(** [obj[key]] with a string key, on the values above. *)
Definition py_getitem (obj : pyval) (key : string) : result pyval :=
  match obj with
  | PDict d =>
      match dict_lookup key d with
      | Some v => Return v
      | None => Raise (Exn KeyError ("'" ++ key ++ "'"))
      end
  | PList _ | PStr _ =>
      Raise (Exn TypeError
               (type_name obj ++ " indices must be integers or slices, not str"))
  | _ =>
      Raise (Exn TypeError ("'" ++ type_name obj ++ "' object is not subscriptable"))
  end.

(** The items a [for] loop visits. *)
Definition py_iter (v : pyval) : result (list pyval) :=
  match v with
  | PList l => Return l
  | PDict d => Return (map (fun kv => PStr (fst kv)) d)
  | PStr s =>
      Return (map (fun c => PStr (String c EmptyString)) (list_ascii_of_string s))
  | _ =>
      Raise (Exn TypeError ("'" ++ type_name v ++ "' object is not iterable"))
  end.

(** The conversion the [math] functions apply to their argument. *)
Definition as_double (v : pyval) : result float64 :=
  match v with
  | PFloat x => Return x
  | PInt n =>
      let x := of_Z n in
      if is_inf x then Raise (Exn OverflowError "int too large to convert to float")
      else Return x
  | PBool b => Return (of_Z (if b then 1 else 0))
  | _ => Raise (Exn TypeError ("must be real number, not " ++ type_name v))
  end.

(** [sub in s] on strings. *)
Fixpoint contains (sub s : string) : bool :=
  if String.prefix sub s then true
  else match s with
       | EmptyString => false
       | String _ s' => contains sub s'
       end.

End Py.

Export Py.

Declare Scope py_scope.
Delimit Scope py_scope with py.
Notation "x <- m ;; k" := (bind m (fun x => k))
  (at level 61, m at next level, right associativity) : py_scope.
Local Open Scope py_scope.

(* ================================================================== *)
(** * main.py *)
(* ================================================================== *)

Module Main.

(** ** What the program obtains from outside *)

(** The C library functions behind [math.sin], [math.cos], [math.asin]
    and the float power operator. *)
Record libm : Type := {
  c_sin : float64 -> float64;
  c_cos : float64 -> float64;
  c_asin : float64 -> float64;
  c_pow : float64 -> float64 -> float64
}.

(** The object [requests.get] returns, reduced to the two methods called. *)
Record response : Type := {
  raise_for_status : result unit;
  json : result pyval
}.

(** The query parameters of the places request.  [location] stands for the
    text [f"{latitude},{longitude}"]. *)
Record params : Type := {
  location : pyval * pyval;
  radius : Z;
  keyword : string;
  key : option string
}.

Record world : Type := {
  (** [os.getenv] at import time: [None] when the variable is unset *)
  GOOGLE_API_KEY : option string;
  GOOGLE_MAPS_API_KEY : option string;
  libc : libm;
  (** [requests.get(url, params=params)] *)
  requests_get : string -> params -> result response;
  (** the indexer pandas computes for [sort_values] on a float column *)
  argsort : list float64 -> list nat;
  (** [sr.AudioFile], [recognizer.record] and [recognize_google] on a path
      and a language code *)
  recognize : string -> string -> result string;
  (** [prompt | llm]: the text the model answers for a patient statement
      and a language label *)
  llm_invoke : string -> string -> result string;
  (** the JSON decoding step of the output parser *)
  parse_json : string -> result pyval
}.

(** [not key] for a value of [os.getenv]. *)
Definition key_missing (k : option string) : bool :=
  match k with
  | None => true
  | Some s => String.eqb s ""
  end.

(** ** TriageResponse (lines 15-21) *)

Record TriageResponse : Type := {
  urgency : string;
  possible_causes : list string;
  suggested_specialty : string;
  self_care_tips : option (list string);
  recommended_tests : option (list string);
  explanation : string
}.

Definition validation_error (field why : string) : exn :=
  Exn OutputParserException
      ("Failed to parse TriageResponse: " ++ field ++ ": " ++ why).

(** A field annotated [str]: present and a string.  No other constraint is
    declared on it. *)
Definition field_str (d : list (string * pyval)) (k : string) : result string :=
  match dict_lookup k d with
  | None => Raise (validation_error k "Field required")
  | Some (PStr s) => Return s
  | Some _ => Raise (validation_error k "Input should be a valid string")
  end.

Fixpoint all_str (k : string) (l : list pyval) : result (list string) :=
  match l with
  | [] => Return []
  | PStr s :: l' => ss <- all_str k l' ;; Return (s :: ss)
  | _ :: _ => Raise (validation_error k "Input should be a valid string")
  end.

(** A field annotated [List[str]]. *)
Definition field_str_list (d : list (string * pyval)) (k : string)
  : result (list string) :=
  match dict_lookup k d with
  | None => Raise (validation_error k "Field required")
  | Some (PList l) => all_str k l
  | Some _ => Raise (validation_error k "Input should be a valid list")
  end.

(** A field annotated [Optional[List[str]]] with no default: it must be
    present and may be [null]. *)
Definition field_opt_str_list (d : list (string * pyval)) (k : string)
  : result (option (list string)) :=
  match dict_lookup k d with
  | None => Raise (validation_error k "Field required")
  | Some PNone => Return None
  | Some (PList l) => ss <- all_str k l ;; Return (Some ss)
  | Some _ => Raise (validation_error k "Input should be a valid list")
  end.

(** Validation of a decoded object against the model class. *)
Definition validate_TriageResponse (obj : pyval) : result TriageResponse :=
  match obj with
  | PDict d =>
      u <- field_str d "urgency" ;;
      pc <- field_str_list d "possible_causes" ;;
      sp <- field_str d "suggested_specialty" ;;
      sc <- field_opt_str_list d "self_care_tips" ;;
      rt <- field_opt_str_list d "recommended_tests" ;;
      ex <- field_str d "explanation" ;;
      Return {| urgency := u; possible_causes := pc; suggested_specialty := sp;
                self_care_tips := sc; recommended_tests := rt; explanation := ex |}
  | _ => Raise (validation_error "TriageResponse" "Input should be an object")
  end.

(** ** load_ai_model (lines 23-30) *)

(** The pair [(llm, parser)] carries no data of its own in this model. *)
Definition load_ai_model (w : world) : result unit :=
  if key_missing (GOOGLE_API_KEY w)
  then Raise (Exn ValueError "GOOGLE_API_KEY for Gemini not found!")
  else Return tt.

(** ** get_ai_triage_analysis (lines 32-49) *)

(** The function returns a [TriageResponse] or a [str]. *)
Inductive analysis_return : Type :=
| IsTriage (r : TriageResponse)
| IsStr (s : string).

(** [chain.invoke]: the model is called, its text decoded and validated. *)
Definition chain_invoke (w : world) (patient_text language : string)
  : result TriageResponse :=
  text <- llm_invoke w patient_text language ;;
  obj <- parse_json w text ;;
  validate_TriageResponse obj.

Definition get_ai_triage_analysis (w : world) (patient_text language : string)
  : analysis_return :=
  match chain_invoke w patient_text language with
  | Return r => IsTriage r
  | Raise e => IsStr ("Error processing AI response: " ++ exn_msg e)
  end.

(** ** transcribe_audio (lines 51-61) *)

Definition transcribe_audio (w : world) (audio_file_path language_code : string)
  : result string :=
  match recognize w audio_file_path language_code with
  | Return text => Return text
  | Raise e =>
      match exn_cls e with
      | UnknownValueError => Return "Error: Could not understand the audio."
      | RequestError => Return "Error: API request failed. Check internet."
      | _ => Raise e
      end
  end.

(** ** The [math] module and float arithmetic, as the loop body uses them *)

(** [math.pi], the double nearest to pi. *)
Definition math_pi : float64 := S754_finite false 0x1921FB54442D18 (-51).

(** [math.radians(v)]: the argument as a double, times [pi / 180]. *)
Definition degToRad : float64 := fdiv math_pi (of_Z 180).

Definition radians (v : pyval) : result float64 :=
  x <- as_double v ;; Return (fmul x degToRad).

(** The wrapper around a one-argument C function: a NaN result for a
    number, or an infinite result for a finite argument, is a
    [ValueError]. *)
Definition math_1 (f : float64 -> float64) (x : float64) : result float64 :=
  let r := f x in
  if is_nan r && negb (is_nan x) then Raise (Exn ValueError "math domain error")
  else if is_inf r && is_finite x then Raise (Exn ValueError "math domain error")
  else Return r.

Definition math_sin (w : world) : float64 -> result float64 := math_1 (c_sin (libc w)).
Definition math_cos (w : world) : float64 -> result float64 := math_1 (c_cos (libc w)).
Definition math_asin (w : world) : float64 -> result float64 := math_1 (c_asin (libc w)).
Definition math_sqrt : float64 -> result float64 := math_1 fsqrt.

(** The value of [x ** 2] when it has one. *)
Definition square (w : world) (x : float64) : float64 :=
  match x with
  | S754_nan => S754_nan
  | S754_infinity _ => S754_infinity false
  | S754_zero _ => S754_zero false
  | S754_finite _ _ _ => c_pow (libc w) (SFabs x) (of_Z 2)
  end.

(** [x ** 2] on a float: an overflow of the C function is an
    [OverflowError]. *)
Definition pow2 (w : world) (x : float64) : result float64 :=
  let r := square w x in
  if is_finite x && is_inf r
  then Raise (Exn OverflowError "(34, 'Numerical result out of range')")
  else Return r.

(** Lines 85-88, for the query point and the candidate's coordinates, all
    four in degrees. *)
Definition distance_km (w : world) (latitude longitude lat lng : pyval)
  : result float64 :=
  let R := 6371%Z in
  lat1 <- radians latitude ;;
  lon1 <- radians longitude ;;
  lat2 <- radians lat ;;
  lon2 <- radians lng ;;
  let dLat := fsub lat2 lat1 in
  let dLon := fsub lon2 lon1 in
  s1 <- math_sin w (fdiv dLat (of_Z 2)) ;;
  q1 <- pow2 w s1 ;;
  c1 <- math_cos w lat1 ;;
  c2 <- math_cos w lat2 ;;
  s2 <- math_sin w (fdiv dLon (of_Z 2)) ;;
  q2 <- pow2 w s2 ;;
  let a := fadd q1 (fmul (fmul c1 c2) q2) in
  r <- math_sqrt a ;;
  t <- math_asin w r ;;
  Return (fmul (of_Z (2 * R)) t).

(** ** find_nearby_places_google (lines 63-103) *)

(** One dict appended to [places]. *)
Record place_row : Type := {
  Name : pyval;
  Address : pyval;
  Rating : pyval;
  Distance_km : float64
}.

(** A [pandas.DataFrame], as the list of dicts it was built from: its
    column labels and, row by row, the dict each row holds.  The distance
    column is a column of floats, which pandas stores as they are.  In the
    three other columns pandas stores a field as the dict has it when the
    column holds a text (the 'N/A' of a missing field is one), and may
    convert the fields of a column of numbers to one numeric type; [rows]
    keeps the dicts and does not record that conversion. *)
Record DataFrame : Type := {
  columns : list string;
  rows : list place_row
}.

(** [pd.DataFrame()] *)
Definition empty_frame : DataFrame := {| columns := []; rows := [] |}.

(** [pd.DataFrame(places)] for a non-empty list of the dicts above. *)
Definition frame_of (places : list place_row) : DataFrame :=
  {| columns := ["Name"; "Address"; "Rating"; "Distance (km)"]; rows := places |}.

(** [df.empty] *)
Definition frame_empty (df : DataFrame) : bool :=
  match rows df with [] => true | _ => false end.

(** The rows at the positions of an indexer. *)
Definition take (rs : list place_row) (indexer : list nat) : list place_row :=
  flat_map (fun i => match nth_error rs i with Some r => [r] | None => [] end)
           indexer.

(** [df.sort_values('Distance (km)')], with pandas' defaults. *)
Definition sort_values (w : world) (df : DataFrame) : DataFrame :=
  {| columns := columns df;
     rows := take (rows df) (argsort w (map Distance_km (rows df))) |}.

(** The body of the loop (lines 83-95) for one [place]. *)
Definition place_entry (w : world) (latitude longitude place : pyval)
  : result place_row :=
  geometry <- py_get place "geometry" (PDict []) ;;
  loc <- py_get geometry "location" (PDict []) ;;
  lat <- py_get loc "lat" (PInt 0) ;;
  lng <- py_get loc "lng" (PInt 0) ;;
  dist <- distance_km w latitude longitude lat lng ;;
  name <- py_get place "name" (PStr "N/A") ;;
  vicinity <- py_get place "vicinity" (PStr "N/A") ;;
  rating <- py_get place "rating" (PStr "N/A") ;;
  Return {| Name := name; Address := vicinity; Rating := rating;
            Distance_km := dist |}.

(** The [for] loop: [places] grows by one dict per item. *)
Fixpoint for_places (w : world) (latitude longitude : pyval)
         (items : list pyval) (places : list place_row)
  : result (list place_row) :=
  match items with
  | [] => Return places
  | place :: rest =>
      r <- place_entry w latitude longitude place ;;
      for_places w latitude longitude rest (places ++ [r])
  end.

Definition api_url : string :=
  "https://maps.googleapis.com/maps/api/place/nearbysearch/json".

(** The body of the [try] (lines 76-98). *)
Definition try_body (w : world) (latitude longitude : pyval) (query : string)
           (radius : Z) : result DataFrame :=
  let params := {| location := (latitude, longitude); radius := radius;
                   keyword := query; key := GOOGLE_MAPS_API_KEY w |} in
  response <- requests_get w api_url params ;;
  _ <- raise_for_status response ;;
  data <- json response ;;
  results <- py_get data "results" PNone ;;
  places <- (if truthy results
             then container <- py_getitem data "results" ;;
                  items <- py_iter container ;;
                  for_places w latitude longitude items []
             else Return []) ;;
  match places with
  | [] => Return empty_frame
  | _ => Return (sort_values w (frame_of places))
  end.

(** The function returns a [DataFrame] or a [str]. *)
Inductive places_return : Type :=
| IsFrame (df : DataFrame)
| IsText (s : string).

Definition find_nearby_places_google (w : world) (latitude longitude : pyval)
           (query : string) (radius : Z) : result places_return :=
  if key_missing (GOOGLE_MAPS_API_KEY w)
  then Raise (Exn ValueError "GOOGLE_MAPS_API_KEY not found!")
  else
    match try_body w latitude longitude query radius with
    | Return df => Return (IsFrame df)
    | Raise e =>
        if is_RequestException e
        then Return (IsText ("Error connecting to Google Maps API: " ++ exn_msg e))
        else Return (IsText ("An error occurred while parsing Google Maps data: "
                               ++ exn_msg e))
    end.

(** The default of the [radius] parameter. *)
Definition default_radius : Z := 10000.

End Main.

(* ================================================================== *)
(** * app.py *)
(* ================================================================== *)

Module App.

Import Main.

(** The two options of the language select box (line 66). *)
Inductive language : Type := EnglishIndia | HindiIndia.

Definition language_name (l : language) : string :=
  match l with
  | EnglishIndia => "English (India)"
  | HindiIndia => "Hindi (हिन्दी)"
  end.

(** [language_map[selected_language_name]] *)
Definition language_map (l : language) : string :=
  match l with
  | EnglishIndia => "en-IN"
  | HindiIndia => "hi-IN"
  end.

(** The widgets of one run of the script, and the services only the page
    uses. *)
Record page : Type := {
  (** [streamlit_geolocation()] *)
  location_data : pyval;
  manual_city : string;
  find_location_clicked : bool;
  (** [Nominatim(...).geocode(city)]: [None] or a location *)
  geocode : string -> result (option (pyval * pyval));
  (** the format specification [.4f] applied to a value *)
  format_4f : pyval -> result string;
  selected_language : language;
  (** the uploaded recording, when there is one *)
  uploaded_file : option string;
  analyze_clicked : bool;
  (** name of the temporary file the recording is written to *)
  tmp_name : string -> string;
  (** [st.table(df.style.format({'Rating': '{:.1f}', 'Distance (km)':
      '{:.1f}'}))]: the rendering applies the format to every cell of the
      two columns, and raises where a cell does not take it *)
  st_table : DataFrame -> result unit
}.

Inductive status_label : Type :=
| Transcribing
| TranscriptionFailed
| AnalyzingSymptoms
| AnalysisComplete
| AnalysisFailed.

(** What a run does that can be observed: the messages it shows and the
    calls into [main.py].  Titles, captions and markdown text are not
    recorded. *)
Inductive event : Type :=
| StError (msg : string)
| StWarning (msg : string)
| StInfo (msg : string)
| StSuccess (msg : string)
| StatusUpdate (label : status_label)
| StTable (df : DataFrame)
| Call_transcribe_audio (path code : string)
| Call_get_ai_triage_analysis (text lang : string)
| Call_find_nearby_places_google (lat lon : pyval) (query : string).

(** [st.session_state] and the record of the run so far. *)
Record state : Type := {
  analysis_result : option TriageResponse;
  user_location : option (pyval * pyval);
  log : list event
}.

(** A step of the script continues, ends the run ([st.stop()]), or ends it
    with an exception nobody caught. *)
Inductive ctl (A : Type) : Type :=
| Next (a : A)
| Halt
| Crash (e : exn).
Arguments Next {A} a.
Arguments Halt {A}.
Arguments Crash {A} e.

Definition script (A : Type) : Type := state -> ctl A * state.

Definition ret {A : Type} (a : A) : script A := fun s => (Next a, s).

Definition and_then {A B : Type} (m : script A) (k : A -> script B) : script B :=
  fun s =>
    match m s with
    | (Next a, s') => k a s'
    | (Halt, s') => (Halt, s')
    | (Crash e, s') => (Crash e, s')
    end.

Definition emit (ev : event) : script unit :=
  fun s => (Next tt, {| analysis_result := analysis_result s;
                        user_location := user_location s;
                        log := log s ++ [ev] |}).

Definition stop {A : Type} : script A := fun s => (Halt, s).

(** A call whose exception is not handled at the call site. *)
Definition call {A : Type} (r : result A) : script A :=
  fun s => match r with
           | Return a => (Next a, s)
           | Raise e => (Crash e, s)
           end.

Definition get_analysis_result : script (option TriageResponse) :=
  fun s => (Next (analysis_result s), s).

Definition get_user_location : script (option (pyval * pyval)) :=
  fun s => (Next (user_location s), s).

Definition set_analysis_result (r : option TriageResponse) : script unit :=
  fun s => (Next tt, {| analysis_result := r;
                        user_location := user_location s;
                        log := log s |}).

Definition set_user_location (l : option (pyval * pyval)) : script unit :=
  fun s => (Next tt, {| analysis_result := analysis_result s;
                        user_location := l;
                        log := log s |}).

Notation "x <~ m ;; k" := (and_then m (fun x => k))
  (at level 61, m at next level, right associativity) : py_scope.
Notation "m ;;; k" := (and_then m (fun _ => k))
  (at level 61, right associativity) : py_scope.

(** ** Lines 32-37: the model is loaded, or the run stops *)

Definition load_models (w : world) : script unit :=
  match load_ai_model w with
  | Return _ => ret tt
  | Raise e =>
      if is_ValueError e
      then emit (StError (exn_msg e)) ;;; stop
      else call (Raise e)
  end.

(** ** Lines 46-68: the sidebar *)

Definition captured_message (lat lon : string) : string :=
  "Location captured: (" ++ lat ++ ", " ++ lon ++ ")".

Definition city_message (city lat lon : string) : string :=
  "Location set to " ++ city ++ ": (" ++ lat ++ ", " ++ lon ++ ")".

Definition browser_location (pg : page) : script unit :=
  let d := location_data pg in
  if truthy d
  then
    lat0 <~ call (py_get d "latitude" PNone) ;;
    match lat0 with
    | PNone => ret tt
    | _ =>
        lat <~ call (py_getitem d "latitude") ;;
        lon <~ call (py_getitem d "longitude") ;;
        set_user_location (Some (lat, lon)) ;;;
        a <~ call (format_4f pg lat) ;;
        b <~ call (format_4f pg lon) ;;
        emit (StSuccess (captured_message a b))
    end
  else ret tt.

(** The [try] of lines 56-63 with its handler. *)
Definition city_location (pg : page) : script unit :=
  if find_location_clicked pg
  then
    match geocode pg (manual_city pg) with
    | Raise e => emit (StError ("Geocoding error: " ++ exn_msg e))
    | Return None => emit (StError "Could not find this city.")
    | Return (Some (lat, lon)) =>
        set_user_location (Some (lat, lon)) ;;;
        match (a <- format_4f pg lat ;; b <- format_4f pg lon ;; Return (a, b)) with
        | Return (a, b) => emit (StSuccess (city_message (manual_city pg) a b))
        | Raise e => emit (StError ("Geocoding error: " ++ exn_msg e))
        end
    end
  else ret tt.

Definition sidebar (pg : page) : script unit :=
  browser_location pg ;;; city_location pg.

(** ** Lines 71-99: upload and analysis *)

Definition analyze_symptoms (w : world) (pg : page) (recording : string)
  : script unit :=
  let selected_language_name := language_name (selected_language pg) in
  let language_code := language_map (selected_language pg) in
  set_analysis_result None ;;;
  let temp_audio_path := tmp_name pg recording in
  emit (StatusUpdate Transcribing) ;;;
  emit (Call_transcribe_audio temp_audio_path language_code) ;;;
  transcribed_text <~ call (transcribe_audio w temp_audio_path language_code) ;;
  if contains "Error:" transcribed_text
  then
    emit (StatusUpdate TranscriptionFailed) ;;;
    emit (StError transcribed_text)
  else
    emit (StatusUpdate AnalyzingSymptoms) ;;;
    emit (Call_get_ai_triage_analysis transcribed_text selected_language_name) ;;;
    match get_ai_triage_analysis w transcribed_text selected_language_name with
    | IsTriage r =>
        set_analysis_result (Some r) ;;;
        emit (StatusUpdate AnalysisComplete)
    | IsStr msg =>
        set_analysis_result None ;;;
        emit (StatusUpdate AnalysisFailed) ;;;
        emit (StError msg)
    end.

Definition main_flow (w : world) (pg : page) : script unit :=
  loc <~ get_user_location ;;
  (match loc with
   | None => emit (StWarning
                     "Please set your location in the sidebar to enable analysis.")
   | Some _ => ret tt
   end) ;;;
  match uploaded_file pg with
  | None => ret tt
  | Some recording =>
      (* the button is disabled, and returns False, without a location *)
      if analyze_clicked pg && (match loc with None => false | Some _ => true end)
      then analyze_symptoms w pg recording
      else ret tt
  end.

(** ** Lines 101-147: the report *)

(** One lookup and its table (lines 110-115 and 142-147). *)
Definition show_places (w : world) (pg : page) (lat lon : pyval)
           (query not_found : string) : script unit :=
  emit (Call_find_nearby_places_google lat lon query) ;;;
  found <~ call (find_nearby_places_google w lat lon query default_radius) ;;
  match found with
  | IsFrame df =>
      if negb (frame_empty df)
      then call (st_table pg df) ;;; emit (StTable df)
      else emit (StWarning not_found)
  | IsText _ => emit (StWarning not_found)
  end.

Definition newline : string := String (ascii_of_nat 10) EmptyString.

Definition emergency_banner : string :=
  "**URGENCY: EMERGENCY**" ++ newline ++ newline
    ++ "Seek immediate medical attention.".

Definition no_doctors (specialty : string) : string :=
  "Could not find any nearby doctors for the specialty '" ++ specialty ++ "'.".

Definition is_nonempty {A : Type} (o : option (list A)) : bool :=
  match o with
  | Some (_ :: _) => true
  | _ => false
  end.

Definition report (w : world) (pg : page) : script unit :=
  shown <~ get_analysis_result ;;
  match shown with
  | None => ret tt
  | Some result =>
      loc <~ get_user_location ;;
      match loc with
      | None =>
          call (Raise (Exn TypeError "cannot unpack non-iterable NoneType object"))
      | Some (user_lat, user_lon) =>
          (if String.eqb (urgency result) "Emergency"
           then emit (StError emergency_banner) ;;;
                show_places w pg user_lat user_lon "hospital emergency"
                            "Could not find nearby emergency services."
           else ret tt) ;;;
          (if is_nonempty (self_care_tips result) then ret tt
           else emit (StWarning "No self-care is advised. Please consult a doctor.")) ;;;
          (if is_nonempty (recommended_tests result) then ret tt
           else emit (StInfo "The AI did not suggest specific tests.")) ;;;
          show_places w pg user_lat user_lon (suggested_specialty result)
                      (no_doctors (suggested_specialty result))
      end
  end.

Definition disclaimer : string :=
  "**Disclaimer:** This is a prototype and not a substitute for professional medical advice.".

(** ** The script, top to bottom *)

Definition app (w : world) (pg : page) : script unit :=
  load_models w ;;;
  sidebar pg ;;;
  main_flow w pg ;;;
  report w pg ;;;
  emit (StWarning disclaimer).

(** One run, from the session state the previous run left. *)
Definition run (w : world) (pg : page) (analysis : option TriageResponse)
           (location : option (pyval * pyval)) : ctl unit * state :=
  app w pg {| analysis_result := analysis; user_location := location; log := [] |}.

(** ** Observations on a run *)

Definition not_analysis_call (ev : event) : Prop :=
  match ev with
  | Call_get_ai_triage_analysis _ _ => False
  | _ => True
  end.

(** A step that never calls the analysis. *)
Definition quiet {A : Type} (m : script A) : Prop :=
  forall s, Forall not_analysis_call (log s) ->
            Forall not_analysis_call (log (snd (m s))).

(** A property of the two session entries that a step keeps, however the
    step ends. *)
Definition session_keeps
           (J : option TriageResponse -> option (pyval * pyval) -> Prop)
           {A : Type} (m : script A) : Prop :=
  forall s, J (analysis_result s) (user_location s) ->
            J (analysis_result (snd (m s))) (user_location (snd (m s))).

(** The session has a location. *)
Definition has_location (_ : option TriageResponse) (l : option (pyval * pyval))
  : Prop := l <> None.

(** The session has a result only together with a location. *)
Definition located (a : option TriageResponse) (l : option (pyval * pyval))
  : Prop := a <> None -> l <> None.

(** The queries of the place lookups a log records, in order. *)
Definition lookups (l : list event) : list string :=
  flat_map (fun ev => match ev with
                      | Call_find_nearby_places_google _ _ q => [q]
                      | _ => []
                      end) l.

(** The browser gives no location, as line 49 tests it: the component
    returned nothing, or a dict whose ['latitude'] is [None] or absent. *)
Definition no_browser_location (pg : page) : Prop :=
  truthy (location_data pg) = false
  \/ py_get (location_data pg) "latitude" PNone = Return PNone.

(** The table of the lookup of [query] renders, when the lookup has one. *)
Definition renders (w : world) (pg : page) (lat lon : pyval) (query : string)
  : Prop :=
  forall df,
    find_nearby_places_google w lat lon query default_radius = Return (IsFrame df) ->
    frame_empty df = false ->
    st_table pg df = Return tt.

(** The session after successive runs of the script, each with its own
    world and widgets, from the session [(analysis, location)]. *)
Fixpoint reruns (visits : list (world * page))
         (analysis : option TriageResponse) (location : option (pyval * pyval))
  : option TriageResponse * option (pyval * pyval) :=
  match visits with
  | [] => (analysis, location)
  | (w, pg) :: rest =>
      let s := snd (run w pg analysis location) in
      reruns rest (analysis_result s) (user_location s)
  end.

End App.

(* ================================================================== *)
(** * Statements about the outside world, and the specification's formula *)
(* ================================================================== *)

Module Spec.

Import Main.

(** The order [sort_values] sorts a float column by: ascending, with
    not-a-number keys after every number. *)
Definition na_last_le (x y : float64) : bool :=
  is_nan y || (negb (is_nan x) && SFleb x y).

Fixpoint ascending (ks : list float64) : bool :=
  match ks with
  | x :: (y :: _) as rest => na_last_le x y && ascending rest
  | _ => true
  end.

(** [indexer] lists every position below [n] once. *)
Definition positions (n : nat) (indexer : list nat) : bool :=
  (List.length indexer =? n)%nat
  && forallb (fun i => existsb (Nat.eqb i) indexer) (seq 0 n).

(** What pandas promises of the indexer it computes for a column of keys:
    it permutes the positions and lists the keys in the order above.  The
    default sorting kind promises nothing on the order of equal keys. *)
Definition sorting_indexer (keys : list float64) (indexer : list nat) : bool :=
  positions (List.length keys) indexer
  && ascending (map (fun i => nth i keys S754_nan) indexer).

(** The places API answered the query with the decoded body [data], whose
    ['results'] entry is [results] ([None] when the body has none). *)
Definition upstream_results (w : world) (latitude longitude : pyval)
           (query : string) (radius : Z) (results : pyval) : Prop :=
  exists resp data,
    requests_get w api_url
                 {| location := (latitude, longitude); radius := radius;
                    keyword := query; key := GOOGLE_MAPS_API_KEY w |}
      = Return resp
    /\ raise_for_status resp = Return tt
    /\ json resp = Return data
    /\ py_get data "results" PNone = Return results.

(** The haversine distance, written from the specification (sections 4.3
    and 4.4) in binary64 arithmetic.  Nothing here is taken from the model
    of the code: the constant, the conversion and the squaring are this
    section's own. *)

(** The double nearest to pi, 3.141592653589793. *)
Definition pi64 : float64 := S754_finite false 7074237752028440 (-51).

(** An angle in degrees, in radians: the angle times pi / 180. *)
Definition degrees_to_radians (deg : float64) : float64 :=
  SFmul 53 1024 deg (SFdiv 53 1024 pi64 (binary_normalize 53 1024 180 0 false)).

(** The square of a float, as the power of exponent 2 gives it: a NaN for
    a NaN, plus infinity for an infinity, plus zero for a zero, and for any
    other number the C library's power of its absolute value. *)
Definition squared (w : world) (x : float64) : float64 :=
  if is_nan x then S754_nan
  else if is_inf x then S754_infinity false
  else if SFeqb x (S754_zero false) then S754_zero false
  else c_pow (libc w) (SFabs x) (binary_normalize 53 1024 2 0 false).

(** The mean radius of the Earth, in kilometres. *)
Definition earth_radius_km : Z := 6371.

(** a = sin^2(dlat/2) + cos(lat1) cos(lat2) sin^2(dlon/2), and the
    distance is 2 R asin(sqrt a); the four angles are given in degrees. *)
Definition haversineKm (w : world) (lat1 lon1 lat2 lon2 : float64) : float64 :=
  let two := binary_normalize 53 1024 2 0 false in
  let phi1 := degrees_to_radians lat1 in
  let phi2 := degrees_to_radians lat2 in
  let lambda1 := degrees_to_radians lon1 in
  let lambda2 := degrees_to_radians lon2 in
  let dlat := SFsub 53 1024 phi2 phi1 in
  let dlon := SFsub 53 1024 lambda2 lambda1 in
  let a := SFadd 53 1024
             (squared w (c_sin (libc w) (SFdiv 53 1024 dlat two)))
             (SFmul 53 1024
                (SFmul 53 1024 (c_cos (libc w) phi1) (c_cos (libc w) phi2))
                (squared w (c_sin (libc w) (SFdiv 53 1024 dlon two)))) in
  SFmul 53 1024
        (binary_normalize 53 1024 (2 * earth_radius_km) 0 false)
        (c_asin (libc w) (SFsqrt 53 1024 a)).

(** The text returned for a failure with cause [e]: the cause's message
    after one of the two headings of the handlers. *)
Definition place_search_error (e : exn) : string :=
  (if is_RequestException e
   then "Error connecting to Google Maps API: "
   else "An error occurred while parsing Google Maps data: ") ++ exn_msg e.

(** [place] carries the coordinates [lat] and [lng], each 0 by default. *)
Definition candidate_coordinates (place lat lng : pyval) : Prop :=
  exists geometry loc,
    py_get place "geometry" (PDict []) = Return geometry
    /\ py_get geometry "location" (PDict []) = Return loc
    /\ py_get loc "lat" (PInt 0) = Return lat
    /\ py_get loc "lng" (PInt 0) = Return lng.

(** The value of [d.get(k, default)]. *)
Definition get_or (d : list (string * pyval)) (k : string) (default : pyval)
  : pyval :=
  match dict_lookup k d with Some v => v | None => default end.

(** The three urgency values the specification enumerates. *)
Definition urgency_values : list string := ["Emergency"; "Urgent"; "Routine"].

(** A candidate whose entry leaves the coordinates out: no ['geometry']
    key, or a geometry without a ['location'] key, or a location with
    neither a ['lat'] nor a ['lng'] key. *)
Definition lacks_coordinates (d : list (string * pyval)) : Prop :=
  dict_lookup "geometry" d = None
  \/ exists g, dict_lookup "geometry" d = Some (PDict g)
       /\ (dict_lookup "location" g = None
           \/ exists l, dict_lookup "location" g = Some (PDict l)
                /\ dict_lookup "lat" l = None /\ dict_lookup "lng" l = None).

(** A candidate whose entry has the coordinates' place but [null] in it:
    a ['geometry'] that is [null], or a geometry whose ['location'] is
    [null]. *)
Definition null_coordinates (d : list (string * pyval)) : Prop :=
  dict_lookup "geometry" d = Some PNone
  \/ exists g, dict_lookup "geometry" d = Some (PDict g)
       /\ dict_lookup "location" g = Some PNone.

(** The JSON values the output parser expects for a list of strings and
    for an optional one. *)
Definition json_of_strings (ss : list string) : pyval := PList (map PStr ss).

Definition json_of_optional (o : option (list string)) : pyval :=
  match o with
  | None => PNone
  | Some ss => json_of_strings ss
  end.

(** The object [d] holds the six fields of [r], each with its JSON type. *)
Definition encodes (d : list (string * pyval)) (r : TriageResponse) : Prop :=
  dict_lookup "urgency" d = Some (PStr (urgency r))
  /\ dict_lookup "possible_causes" d = Some (json_of_strings (possible_causes r))
  /\ dict_lookup "suggested_specialty" d = Some (PStr (suggested_specialty r))
  /\ dict_lookup "self_care_tips" d = Some (json_of_optional (self_care_tips r))
  /\ dict_lookup "recommended_tests" d
     = Some (json_of_optional (recommended_tests r))
  /\ dict_lookup "explanation" d = Some (PStr (explanation r)).

End Spec.

(* ================================================================== *)
(** * A world to run the model in *)
(* ================================================================== *)

Module Sample.

Import Main App.

(** The quotient of two integers, rounded once. *)
Definition ratio (n d : Z) : float64 := fdiv (of_Z n) (of_Z d).

(** A C library of short power series.  It stands in for the platform's
    library when the model is run on the inputs below. *)
Definition series_sin (x : float64) : float64 :=
  let x2 := fmul x x in
  fmul x (fsub (of_Z 1)
               (fmul (fdiv x2 (of_Z 6))
                     (fsub (of_Z 1) (fdiv x2 (of_Z 20))))).

Definition series_cos (x : float64) : float64 :=
  let x2 := fmul x x in
  fsub (of_Z 1)
       (fmul (fdiv x2 (of_Z 2))
             (fsub (of_Z 1) (fdiv x2 (of_Z 12)))).

Definition series_asin (x : float64) : float64 :=
  let x2 := fmul x x in
  fmul x (fadd (of_Z 1)
               (fmul (fdiv x2 (of_Z 6))
                     (fadd (of_Z 1) (fmul x2 (ratio 9 20))))).

Definition series_libm : libm :=
  {| c_sin := series_sin; c_cos := series_cos; c_asin := series_asin;
     c_pow := fun x y => if SFeqb y (of_Z 2) then fmul x x else S754_nan |}.

(** Insertion of position [i] in an indexer ordered by key; [before]
    decides whether [i] goes in front of a position already there. *)
Fixpoint insert_position (before : float64 -> float64 -> bool)
         (keys : list float64) (i : nat) (indexer : list nat) : list nat :=
  match indexer with
  | [] => [i]
  | j :: rest =>
      if before (nth i keys S754_nan) (nth j keys S754_nan)
      then i :: indexer
      else j :: insert_position before keys i rest
  end.

(** An indexer by insertion: the positions of the numbers, inserted from
    left to right, then the positions of the not-a-number keys. *)
Definition insertion_argsort (before : float64 -> float64 -> bool)
           (keys : list float64) : list nat :=
  let numbers := filter (fun i => negb (is_nan (nth i keys S754_nan)))
                        (seq 0 (List.length keys)) in
  let nans := filter (fun i => is_nan (nth i keys S754_nan))
                     (seq 0 (List.length keys)) in
  fold_left (fun acc i => insert_position before keys i acc) numbers [] ++ nans.

(** With [SFltb], equal keys keep their order. *)
Definition argsort_keeping_ties : list float64 -> list nat :=
  insertion_argsort SFltb.

Definition ok_response (data : pyval) : response :=
  {| raise_for_status := Return tt; json := Return data |}.

(** A world in which both keys are set, the places API answers [data],
    the recogniser answers [heard] and the model answers the object
    [answer]. *)
Definition sample_world (sorter : list float64 -> list nat) (data : pyval)
           (heard : result string) (answer : pyval) : world :=
  {| GOOGLE_API_KEY := Some "gemini-key";
     GOOGLE_MAPS_API_KEY := Some "maps-key";
     libc := series_libm;
     requests_get := fun _ _ => Return (ok_response data);
     argsort := sorter;
     recognize := fun _ _ => heard;
     llm_invoke := fun _ _ => Return "{...}";
     parse_json := fun _ => Return answer |}.

Definition without_maps_key (w : world) : world :=
  {| GOOGLE_API_KEY := GOOGLE_API_KEY w;
     GOOGLE_MAPS_API_KEY := None;
     libc := libc w; requests_get := requests_get w; argsort := argsort w;
     recognize := recognize w; llm_invoke := llm_invoke w;
     parse_json := parse_json w |}.

Definition without_llm_key (w : world) : world :=
  {| GOOGLE_API_KEY := None;
     GOOGLE_MAPS_API_KEY := GOOGLE_MAPS_API_KEY w;
     libc := libc w; requests_get := requests_get w; argsort := argsort w;
     recognize := recognize w; llm_invoke := llm_invoke w;
     parse_json := parse_json w |}.

(** New Delhi, the query point of the specification's scenario. *)
Definition delhi_lat : pyval := PFloat (ratio 286139 10000).
Definition delhi_lon : pyval := PFloat (ratio 772090 10000).

Definition candidate_fields (name : string) (rating : option pyval)
           (lat lng : pyval) : list (string * pyval) :=
  [("name", PStr name); ("vicinity", PStr "Connaught Place")]
    ++ match rating with Some r => [("rating", r)] | None => [] end
    ++ [("geometry", PDict [("location", PDict [("lat", lat); ("lng", lng)])])].

Definition near_fields : list (string * pyval) :=
  candidate_fields "Near Clinic" (Some (PFloat (ratio 45 10)))
                   (PFloat (ratio 2862 100)) (PFloat (ratio 7721 100)).
Definition far_fields : list (string * pyval) :=
  candidate_fields "Far Clinic" None
                   (PFloat (ratio 2870 100)) (PFloat (ratio 7730 100)).
Definition unlocated_fields : list (string * pyval) :=
  [("name", PStr "Somewhere"); ("vicinity", PStr "Unknown Road")].

Definition near : pyval := PDict near_fields.
Definition far : pyval := PDict far_fields.
Definition unlocated : pyval := PDict unlocated_fields.

Definition body (candidates : list pyval) : pyval :=
  PDict [("results", PList candidates); ("status", PStr "OK")].

Definition triage_object (level : string) : pyval :=
  PDict [("urgency", PStr level);
         ("possible_causes", PList [PStr "Angina"; PStr "Panic attack"]);
         ("suggested_specialty", PStr "Cardiologist");
         ("self_care_tips", PNone);
         ("recommended_tests", PList [PStr "ECG"]);
         ("explanation", PStr "Chest pain with breathlessness.")].

(** A world whose places request fails with [e]. *)
Definition offline (w : world) (e : exn) : world :=
  {| GOOGLE_API_KEY := GOOGLE_API_KEY w;
     GOOGLE_MAPS_API_KEY := GOOGLE_MAPS_API_KEY w;
     libc := libc w; requests_get := fun _ _ => Raise e; argsort := argsort w;
     recognize := recognize w; llm_invoke := llm_invoke w;
     parse_json := parse_json w |}.

(** The format ['{:.1f}'] on one cell: a number takes it, a text does not
    know the code, and [None], a list or a dict take no format at all. *)
Definition format_1f (v : pyval) : result unit :=
  match v with
  | PBool _ | PInt _ | PFloat _ => Return tt
  | PStr _ => Raise (Exn ValueError "Unknown format code 'f' for object of type 'str'")
  | _ => Raise (Exn TypeError
                    ("unsupported format string passed to " ++ type_name v
                       ++ ".__format__"))
  end.

(** The cells of a column, one after the other. *)
Fixpoint format_cells (cells : list pyval) : result unit :=
  match cells with
  | [] => Return tt
  | v :: rest => _ <- format_1f v ;; format_cells rest
  end.

(** A column of integers and floats, with [None] for some: pandas stores
    it as a column of floats, a NaN for each [None]. *)
Definition numeric_column (cells : list pyval) : bool :=
  forallb (fun v => match v with
                    | PNone | PInt _ | PFloat _ => true
                    | _ => false
                    end) cells
  && existsb (fun v => match v with
                       | PInt _ | PFloat _ => true
                       | _ => false
                       end) cells.

(** The rendering of the styled frame: a numeric column of ratings takes
    the format; any other is formatted cell by cell, as the dicts hold
    them (a distance is a float and takes the format). *)
Definition styled_table (df : DataFrame) : result unit :=
  if numeric_column (map Rating (rows df)) then Return tt
  else format_cells (map Rating (rows df)).

Definition sample_page (recording : option string) (clicked : bool) : page :=
  {| location_data := PNone;
     manual_city := "";
     find_location_clicked := false;
     geocode := fun _ => Return None;
     format_4f := fun _ => Return "0.0000";
     selected_language := EnglishIndia;
     uploaded_file := recording;
     analyze_clicked := clicked;
     tmp_name := fun _ => "/tmp/tmpvoicedoc.wav";
     st_table := styled_table |}.

(** A candidate whose latitude is a text. *)
Definition broken : pyval :=
  PDict (candidate_fields "Broken Clinic" None
                          (PStr "north") (PFloat (ratio 7721 100))).

(** The worlds and the page of the runs below. *)
Definition complaint : string :=
  "I have severe chest pain and shortness of breath".

Definition ranked_world : world :=
  sample_world argsort_keeping_ties (body [far; near]) (Return complaint)
               (triage_object "Emergency").

(** Every candidate found has a rating. *)
Definition rated_world : world :=
  sample_world argsort_keeping_ties (body [near]) (Return complaint)
               (triage_object "Emergency").

(** A candidate without coordinates, found before the nearer clinic. *)
Definition unlocated_world : world :=
  sample_world argsort_keeping_ties (body [unlocated; near]) (Return complaint)
               (triage_object "Routine").

(** A candidate whose geometry is [null]. *)
Definition null_geometry_fields : list (string * pyval) :=
  [("name", PStr "Nowhere Clinic"); ("vicinity", PStr "Unknown Road");
   ("geometry", PNone)].

Definition null_geometry_world : world :=
  sample_world argsort_keeping_ties (body [near; PDict null_geometry_fields])
               (Return complaint) (triage_object "Routine").

Definition empty_world : world :=
  sample_world argsort_keeping_ties (body []) (Return complaint)
               (triage_object "Routine").

Definition critical_world : world :=
  sample_world argsort_keeping_ties (body [near]) (Return complaint)
               (triage_object "Critical").

Definition unintelligible_world : world :=
  sample_world argsort_keeping_ties (body [near])
               (Raise (Exn UnknownValueError "")) (triage_object "Routine").

Definition printer_world : world :=
  sample_world argsort_keeping_ties (body [near])
               (Return "My monitor shows Error: 12 and my eyes hurt")
               (triage_object "Routine").

Definition mixed_world : world :=
  sample_world argsort_keeping_ties (body [near; broken; far]) (Return complaint)
               (triage_object "Routine").

(** The model's object without its ['explanation']. *)
Definition incomplete_object : pyval :=
  PDict [("urgency", PStr "Urgent");
         ("possible_causes", PList [PStr "Migraine"]);
         ("suggested_specialty", PStr "Neurologist");
         ("self_care_tips", PNone);
         ("recommended_tests", PNone)].

Definition incomplete_world : world :=
  sample_world argsort_keeping_ties (body [near]) (Return complaint)
               incomplete_object.

Definition unreadable_world : world :=
  sample_world argsort_keeping_ties (body [near])
               (Raise (Exn ValueError "Audio file could not be read as PCM WAV"))
               (triage_object "Routine").

Definition unreachable_world : world :=
  sample_world argsort_keeping_ties (body [near])
               (Raise (Exn RequestError "recognition connection failed"))
               (triage_object "Routine").

(** A page on which the city button is pressed and the geocoder fails. *)
Definition city_page : page :=
  {| location_data := PNone;
     manual_city := "Mumbai";
     find_location_clicked := true;
     geocode := fun _ => Raise (Exn OtherException "Service timed out");
     format_4f := fun _ => Return "0.0000";
     selected_language := EnglishIndia;
     uploaded_file := None;
     analyze_clicked := false;
     tmp_name := fun _ => "/tmp/tmpvoicedoc.wav";
     st_table := styled_table |}.

(** The result the model's object for "Emergency" validates to. *)
Definition cardiology : TriageResponse :=
  {| urgency := "Emergency";
     possible_causes := ["Angina"; "Panic attack"];
     suggested_specialty := "Cardiologist";
     self_care_tips := None;
     recommended_tests := Some ["ECG"];
     explanation := "Chest pain with breathlessness." |}.

(** A session with a location, without and with a stored result. *)
Definition located_session : state :=
  {| analysis_result := None;
     user_location := Some (delhi_lat, delhi_lon);
     log := [] |}.

Definition reported_session : state :=
  {| analysis_result := Some cardiology;
     user_location := Some (delhi_lat, delhi_lon);
     log := [] |}.

Definition visit : page := sample_page (Some "RIFF-WAVE-recording") true.

(** A page on which the browser's component answers before the user has
    allowed the location: a dict of [None]. *)
Definition waiting_page (recording : option string) (clicked : bool) : page :=
  {| location_data := PDict [("latitude", PNone); ("longitude", PNone);
                             ("accuracy", PNone)];
     manual_city := "";
     find_location_clicked := false;
     geocode := fun _ => Return None;
     format_4f := fun _ => Return "0.0000";
     selected_language := EnglishIndia;
     uploaded_file := recording;
     analyze_clicked := clicked;
     tmp_name := fun _ => "/tmp/tmpvoicedoc.wav";
     st_table := styled_table |}.

End Sample.

(* ================================================================== *)
(** * Facts shared by the theorems *)
(* ================================================================== *)

Module Facts.

Import Main App Spec.

(** ** The error monad *)

Lemma bind_Return {A B : Type} (m : result A) (k : A -> result B) (b : B) :
  bind m k = Return b -> exists a, m = Return a /\ k a = Return b.
Proof.
  destruct m as [a|e]; simpl; intros H; [exists a; auto | discriminate].
Qed.

(** ** Rows taken at the positions of an indexer *)

Lemma take_from (pre rs : list place_row) :
  flat_map (fun i => match nth_error (pre ++ rs) i with
                     | Some r => [r]
                     | None => []
                     end)
           (seq (List.length pre) (List.length rs)) = rs.
Proof.
  revert pre; induction rs as [|r rs IH]; intros pre; simpl; [reflexivity|].
  rewrite nth_error_app2 by lia. rewrite Nat.sub_diag. simpl. f_equal.
  specialize (IH (pre ++ [r])).
  rewrite length_app, <- app_assoc in IH. simpl in IH.
  rewrite Nat.add_1_r in IH. exact IH.
Qed.

Lemma take_all (rs : list place_row) : take rs (seq 0 (List.length rs)) = rs.
Proof. exact (take_from [] rs). Qed.

Lemma positions_Permutation (n : nat) (indexer : list nat) :
  positions n indexer = true -> Permutation indexer (seq 0 n).
Proof.
  unfold positions. rewrite andb_true_iff, Nat.eqb_eq, forallb_forall.
  intros [Hlen Hall]. symmetry. apply NoDup_Permutation_bis.
  - apply seq_NoDup.
  - rewrite length_seq. lia.
  - intros i Hi. apply Hall in Hi. apply existsb_exists in Hi.
    destruct Hi as [j [Hj Heq]]. apply Nat.eqb_eq in Heq. subst j. exact Hj.
Qed.

Lemma take_Permutation (rs : list place_row) (indexer : list nat) :
  positions (List.length rs) indexer = true -> Permutation (take rs indexer) rs.
Proof.
  intros H. apply positions_Permutation in H.
  rewrite <- (take_all rs) at 2. unfold take.
  apply Permutation_flat_map. exact H.
Qed.

Lemma take_keys (rs : list place_row) (indexer : list nat) :
  Forall (fun i => i < List.length rs) indexer ->
  map Distance_km (take rs indexer)
  = map (fun i => nth i (map Distance_km rs) S754_nan) indexer.
Proof.
  induction 1 as [|i indexer Hi _ IH]; simpl; [reflexivity|].
  rewrite map_app, IH. clear IH.
  destruct (nth_error rs i) as [r|] eqn:E.
  - assert (Hn : nth i (map Distance_km rs) S754_nan = Distance_km r).
    { apply nth_error_nth. rewrite nth_error_map, E. reflexivity. }
    rewrite Hn. reflexivity.
  - apply nth_error_None in E. lia.
Qed.

Lemma positions_bound (n : nat) (indexer : list nat) :
  positions n indexer = true -> Forall (fun i => i < n) indexer.
Proof.
  intros H. apply positions_Permutation in H. apply Forall_forall.
  intros i Hi. apply (Permutation_in _ H) in Hi. apply in_seq in Hi. lia.
Qed.

Lemma ascending_Sorted (ks : list float64) :
  ascending ks = true -> Sorted (fun x y => na_last_le x y = true) ks.
Proof.
  induction ks as [|x ks IH]; intros H; [constructor|].
  destruct ks as [|y ks].
  - constructor; constructor.
  - simpl in H. apply andb_true_iff in H. destruct H as [Hxy Hrest].
    constructor; [apply IH; exact Hrest | constructor; exact Hxy].
Qed.

Lemma Sorted_ascending (ks : list float64) :
  Sorted (fun x y => na_last_le x y = true) ks -> ascending ks = true.
Proof.
  induction 1 as [|x ks Hs IH Hd]; [reflexivity|].
  destruct ks as [|y ks]; [reflexivity|].
  simpl. inversion Hd; subst. apply andb_true_iff. split; assumption.
Qed.

Lemma Sorted_map_keys (R : float64 -> float64 -> Prop) (rs : list place_row) :
  Sorted R (map Distance_km rs) ->
  Sorted (fun r1 r2 => R (Distance_km r1) (Distance_km r2)) rs.
Proof.
  induction rs as [|r rs IH]; simpl; intros H; [constructor|].
  inversion H as [|? ? Hs Hd]; subst. constructor; [apply IH; exact Hs|].
  destruct rs; simpl in *; constructor. inversion Hd; subst. assumption.
Qed.

Lemma Sorted_weaken {A : Type} (P : A -> Prop) (R R' : A -> A -> Prop)
      (l : list A) :
  (forall x y, P x -> P y -> R x y -> R' x y) ->
  Forall P l -> Sorted R l -> Sorted R' l.
Proof.
  intros HR HP Hs. induction Hs as [|x l Hs IH Hd]; [constructor|].
  inversion HP as [|? ? Hx Hl]; subst.
  constructor; [apply IH; exact Hl|].
  destruct Hd as [|y l Hxy]; constructor.
  inversion Hl; subst. apply HR; assumption.
Qed.

Lemma na_last_le_numbers (x y : float64) :
  is_nan x = false -> is_nan y = false ->
  na_last_le x y = true -> SFleb x y = true.
Proof.
  unfold na_last_le. intros Hx Hy. rewrite Hx, Hy. simpl. auto.
Qed.

(** ** The loop over the candidates *)

Lemma for_places_acc (w : world) (lat lon : pyval) (items : list pyval)
      (acc : list place_row) :
  for_places w lat lon items acc
  = (rs <- for_places w lat lon items [] ;; Return (acc ++ rs)).
Proof.
  revert acc; induction items as [|p items IH]; intros acc; simpl.
  - rewrite app_nil_r. reflexivity.
  - destruct (place_entry w lat lon p) as [r|e]; simpl; [|reflexivity].
    rewrite (IH (acc ++ [r])), (IH [r]).
    destruct (for_places w lat lon items []); simpl; [|reflexivity].
    rewrite <- app_assoc. reflexivity.
Qed.

Lemma for_places_Forall2 (w : world) (lat lon : pyval) (items : list pyval)
      (places : list place_row) :
  for_places w lat lon items [] = Return places <->
  Forall2 (fun item r => place_entry w lat lon item = Return r) items places.
Proof.
  split.
  - revert places; induction items as [|p items IH]; intros places; simpl.
    + intros H; inversion H; constructor.
    + destruct (place_entry w lat lon p) as [r|e] eqn:E; simpl; [|discriminate].
      rewrite for_places_acc.
      destruct (for_places w lat lon items []) as [rs|e]; simpl; [|discriminate].
      intros H; inversion H; subst. constructor; [exact E | apply IH; reflexivity].
  - induction 1 as [|p r items places Hp _ IH]; simpl; [reflexivity|].
    rewrite Hp. simpl. rewrite for_places_acc, IH. reflexivity.
Qed.

Lemma for_places_length (w : world) (lat lon : pyval) (items : list pyval)
      (places : list place_row) :
  for_places w lat lon items [] = Return places ->
  List.length places = List.length items.
Proof.
  intros H. apply for_places_Forall2 in H.
  induction H; simpl; [reflexivity | f_equal; assumption].
Qed.

(** ** The body of the [try] once the API has answered *)

Lemma getitem_after_get (data results : pyval) :
  py_get data "results" PNone = Return results ->
  truthy results = true ->
  py_getitem data "results" = Return results.
Proof.
  destruct data; simpl; try discriminate.
  destruct (dict_lookup "results" d) as [v|]; intros H; inversion H; subst.
  - reflexivity.
  - discriminate.
Qed.

Lemma try_body_results (w : world) (lat lon : pyval) (q : string) (radius : Z)
      (results : pyval) :
  upstream_results w lat lon q radius results ->
  try_body w lat lon q radius
  = (places <- (if truthy results
                then items <- py_iter results ;; for_places w lat lon items []
                else Return []) ;;
     match places with
     | [] => Return empty_frame
     | _ => Return (sort_values w (frame_of places))
     end).
Proof.
  intros (resp & data & Hget & Hstatus & Hjson & Hres).
  unfold try_body. rewrite Hget. simpl. rewrite Hstatus. simpl.
  rewrite Hjson. simpl. rewrite Hres. simpl.
  destruct (truthy results) eqn:T; [|reflexivity].
  rewrite (getitem_after_get _ _ Hres T). reflexivity.
Qed.

Lemma find_frame (w : world) (lat lon : pyval) (q : string) (radius : Z)
      (items : list pyval) (places : list place_row) :
  key_missing (GOOGLE_MAPS_API_KEY w) = false ->
  upstream_results w lat lon q radius (PList items) ->
  for_places w lat lon items [] = Return places ->
  find_nearby_places_google w lat lon q radius
  = Return (IsFrame (match places with
                     | [] => empty_frame
                     | _ => sort_values w (frame_of places)
                     end)).
Proof.
  intros Hkey Hup Hloop. unfold find_nearby_places_google. rewrite Hkey.
  rewrite (try_body_results _ _ _ _ _ _ Hup).
  destruct items as [|p items].
  - simpl in *. inversion Hloop; subst. reflexivity.
  - cbn [truthy py_iter bind]. rewrite Hloop. simpl.
    destruct places; reflexivity.
Qed.

Lemma sorted_frame (w : world) (places : list place_row) :
  sorting_indexer (map Distance_km places) (argsort w (map Distance_km places))
  = true ->
  Permutation (rows (sort_values w (frame_of places))) places
  /\ Sorted (fun r1 r2 => na_last_le (Distance_km r1) (Distance_km r2) = true)
            (rows (sort_values w (frame_of places))).
Proof.
  unfold sorting_indexer. rewrite andb_true_iff, length_map. intros [Hpos Hasc].
  split.
  - apply take_Permutation. exact Hpos.
  - apply (Sorted_map_keys (fun x y => na_last_le x y = true)). simpl.
    rewrite take_keys by (apply positions_bound; exact Hpos).
    apply ascending_Sorted. exact Hasc.
Qed.

(** ** Comparison of floats *)

Lemma SFcompare_swap (x y : float64) :
  SFcompare y x = option_map CompOpp (SFcompare x y).
Proof.
  destruct x as [s|s| |s m e], y as [s'|s'| |s' m' e']; simpl;
    try reflexivity;
    try (destruct s; destruct s'; reflexivity);
    try (destruct s; reflexivity);
    try (destruct s'; reflexivity).
  destruct s, s'; simpl; try reflexivity;
    rewrite (Z.compare_antisym e e');
    destruct (e ?= e')%Z; simpl; try reflexivity;
    rewrite (Pos.compare_cont_antisym m m' Eq); reflexivity.
Qed.

Lemma SFcompare_numbers (x y : float64) :
  is_nan x = false -> is_nan y = false -> SFcompare x y <> None.
Proof.
  destruct x, y; simpl; intros; try discriminate.
Qed.

Lemma SFltb_SFleb (x y : float64) : SFltb x y = true -> SFleb x y = true.
Proof.
  unfold SFltb, SFleb. destruct (SFcompare x y) as [[]|]; congruence.
Qed.

Lemma SFltb_total (x y : float64) :
  is_nan x = false -> is_nan y = false ->
  SFltb x y = false -> SFleb y x = true.
Proof.
  intros Hx Hy. unfold SFltb, SFleb. rewrite (SFcompare_swap x y).
  pose proof (SFcompare_numbers x y Hx Hy) as Hn.
  destruct (SFcompare x y) as [[]|]; simpl; congruence.
Qed.

Lemma Sorted_map {A B : Type} (f : A -> B) (R : B -> B -> Prop) (l : list A) :
  Sorted (fun a b => R (f a) (f b)) l -> Sorted R (map f l).
Proof.
  induction 1 as [|x l Hs IH Hd]; simpl; constructor; [exact IH|].
  destruct Hd; simpl; constructor. assumption.
Qed.

(** ** The indexer by insertion satisfies pandas' contract *)

Section Insertion.

Variable before : float64 -> float64 -> bool.
Variable keys : list float64.

Hypothesis before_le : forall x y,
    is_nan x = false -> is_nan y = false ->
    before x y = true -> SFleb x y = true.
Hypothesis before_total : forall x y,
    is_nan x = false -> is_nan y = false ->
    before x y = false -> SFleb y x = true.

Let key (i : nat) : float64 := nth i keys S754_nan.
Let number (i : nat) : Prop := is_nan (key i) = false.
Let le (i j : nat) : Prop := SFleb (key i) (key j) = true.
Let ins (acc : list nat) (i : nat) : list nat :=
  Sample.insert_position before keys i acc.

Lemma insert_In (i x : nat) (indexer : list nat) :
  In x (ins indexer i) <-> x = i \/ In x indexer.
Proof.
  unfold ins. induction indexer as [|j rest IH]; simpl.
  - intuition.
  - destruct (before _ _); simpl; [intuition|]. rewrite IH. intuition.
Qed.

Lemma insert_length (i : nat) (indexer : list nat) :
  List.length (ins indexer i) = S (List.length indexer).
Proof.
  unfold ins. induction indexer as [|j rest IH]; simpl; [reflexivity|].
  destruct (before _ _); simpl; [reflexivity | f_equal; exact IH].
Qed.

Lemma insert_Sorted (i : nat) (indexer : list nat) :
  number i -> Forall number indexer -> Sorted le indexer ->
  Sorted le (ins indexer i).
Proof.
  intros Hi. unfold ins.
  induction indexer as [|j rest IH]; intros Hn Hs; simpl.
  - constructor; constructor.
  - inversion Hn as [|? ? Hj Hrest]; subst.
    inversion Hs as [|? ? Hs' Hd]; subst.
    destruct (before (nth i keys S754_nan) (nth j keys S754_nan)) eqn:B.
    + constructor; [exact Hs|]. constructor.
      apply before_le; assumption.
    + constructor; [apply IH; assumption|].
      destruct rest as [|k rest]; simpl.
      * constructor. apply before_total; assumption.
      * destruct (before (nth i keys S754_nan) (nth k keys S754_nan));
          constructor.
        -- apply before_total; assumption.
        -- inversion Hd; subst. assumption.
Qed.

Lemma fold_insert (l acc : list nat) :
  Forall number l -> Forall number acc -> Sorted le acc ->
  let out := fold_left ins l acc in
  Sorted le out /\ Forall number out
  /\ List.length out = List.length l + List.length acc
  /\ (forall x, In x out <-> In x l \/ In x acc).
Proof.
  revert acc. induction l as [|i l IH]; intros acc Hl Hacc Hs; simpl.
  - repeat split; auto; intuition.
  - inversion Hl as [|? ? Hi Hl']; subst.
    destruct (IH (ins acc i) Hl') as (S1 & S2 & S3 & S4).
    + apply Forall_forall. intros x Hx. apply insert_In in Hx.
      destruct Hx as [->|Hx]; [exact Hi|].
      rewrite Forall_forall in Hacc. apply Hacc; exact Hx.
    + apply insert_Sorted; assumption.
    + repeat split; auto.
      * rewrite S3, insert_length. lia.
      * intros Hx. apply S4 in Hx. rewrite insert_In in Hx. intuition.
      * intros Hx. apply S4. rewrite insert_In. intuition.
Qed.

Lemma numbers_then_nans (l1 l2 : list nat) :
  Sorted le l1 -> Forall number l1 ->
  Forall (fun j => is_nan (key j) = true) l2 ->
  Sorted (fun i j => na_last_le (key i) (key j) = true) (l1 ++ l2).
Proof.
  intros Hs Hn Hnan. induction Hs as [|x l1 Hs IH Hd]; simpl.
  - induction Hnan as [|j l2 Hj Hl2 IH]; constructor; [exact IH|].
    destruct Hl2 as [|k l2 Hk]; constructor.
    unfold na_last_le. rewrite Hk. reflexivity.
  - inversion Hn as [|? ? Hx Hl1]; subst.
    constructor; [apply IH; exact Hl1|].
    destruct Hd as [|y l1 Hxy]; simpl.
    + destruct Hnan as [|k l2 Hk]; constructor.
      unfold na_last_le. rewrite Hk. reflexivity.
    + constructor. unfold na_last_le. unfold number in Hx. rewrite Hx.
      simpl. rewrite Hxy. apply orb_true_r.
Qed.

Lemma insertion_argsort_sorts :
  sorting_indexer keys (Sample.insertion_argsort before keys) = true.
Proof.
  unfold sorting_indexer, Sample.insertion_argsort.
  set (n := List.length keys).
  set (numbers := filter (fun i => negb (is_nan (nth i keys S754_nan))) (seq 0 n)).
  set (nans := filter (fun i => is_nan (nth i keys S754_nan)) (seq 0 n)).
  assert (Hnum : Forall number numbers).
  { apply Forall_forall. intros i Hi. apply filter_In in Hi.
    destruct Hi as [_ Hi]. apply negb_true_iff in Hi. exact Hi. }
  assert (Hnan : Forall (fun j => is_nan (key j) = true) nans).
  { apply Forall_forall. intros i Hi. apply filter_In in Hi. apply Hi. }
  destruct (fold_insert numbers [] Hnum (Forall_nil _) (Sorted_nil _))
    as (S1 & S2 & S3 & S4).
  fold ins. apply andb_true_iff. split.
  - unfold positions. apply andb_true_iff. split.
    + apply Nat.eqb_eq. rewrite length_app, S3. simpl. rewrite Nat.add_0_r.
      pose proof (filter_length (fun i => negb (is_nan (nth i keys S754_nan)))
                                (seq 0 n)) as L.
      rewrite length_seq in L. fold numbers in L.
      replace (List.length nans)
        with (List.length
                (filter (fun x => negb (negb (is_nan (nth x keys S754_nan))))
                        (seq 0 n))); [exact L|].
      unfold nans. f_equal. apply filter_ext. intros a. apply negb_involutive.
    + apply forallb_forall. intros i Hi. apply existsb_exists. exists i.
      split; [|apply Nat.eqb_refl]. apply in_or_app.
      destruct (is_nan (nth i keys S754_nan)) eqn:E.
      * right. apply filter_In. split; assumption.
      * left. apply S4. left. apply filter_In. split; [exact Hi|].
        rewrite E. reflexivity.
  - apply Sorted_ascending.
    apply (Sorted_map key (fun x y => na_last_le x y = true)).
    apply numbers_then_nans; assumption.
Qed.

End Insertion.

Lemma argsort_keeping_ties_sorts (keys : list float64) :
  sorting_indexer keys (Sample.argsort_keeping_ties keys) = true.
Proof.
  apply insertion_argsort_sorts.
  - intros x y _ _. apply SFltb_SFleb.
  - apply SFltb_total.
Qed.

(** ** The distance computation *)

Ltac invert_binds :=
  repeat match goal with
         | H : bind _ _ = Return _ |- _ =>
             apply bind_Return in H; destruct H as [? [? H]]
         | H : Return _ = Return _ |- _ => inversion H; subst; clear H
         end.

Lemma math_1_Return (f : float64 -> float64) (x y : float64) :
  math_1 f x = Return y -> y = f x.
Proof.
  unfold math_1.
  destruct (is_nan (f x) && negb (is_nan x)); [discriminate|].
  destruct (is_inf (f x) && is_finite x); [discriminate|].
  intros H; inversion H; reflexivity.
Qed.

Lemma pow2_Return (w : world) (x y : float64) :
  pow2 w x = Return y -> y = square w x.
Proof.
  unfold pow2. destruct (is_finite x && is_inf (square w x)); [discriminate|].
  intros H; inversion H; reflexivity.
Qed.

(** The code's [x ** 2] and its [math.radians] against the
    specification's squaring and conversion. *)
Lemma square_squared (w : world) (x : float64) : square w x = squared w x.
Proof. destruct x as [[]|[]| |[] m e]; reflexivity. Qed.

Lemma radians_degrees (x : float64) : fmul x degToRad = degrees_to_radians x.
Proof. reflexivity. Qed.

(** The digits of the specification's constant: 3.141592653589793, and
    less than 3.141592653589794. *)
Lemma pi64_digits :
  pi64 = S754_finite false 7074237752028440 (-51)
  /\ (3141592653589793 * 2 ^ 51 <= 7074237752028440 * 10 ^ 15
      < 3141592653589794 * 2 ^ 51)%Z.
Proof.
  split; [reflexivity | split; vm_compute; [discriminate | reflexivity]].
Qed.

Lemma distance_km_Return (w : world) (latitude longitude lat lng : pyval)
      (dist : float64) :
  distance_km w latitude longitude lat lng = Return dist ->
  exists x1 y1 x2 y2,
    as_double latitude = Return x1 /\ as_double longitude = Return y1
    /\ as_double lat = Return x2 /\ as_double lng = Return y2
    /\ dist = haversineKm w x1 y1 x2 y2.
Proof.
  unfold distance_km, radians, math_sin, math_cos, math_asin, math_sqrt.
  intros H. invert_binds.
  repeat match goal with
         | H : math_1 _ _ = Return _ |- _ => apply math_1_Return in H
         | H : pow2 _ _ = Return _ |- _ => apply pow2_Return in H
         end.
  subst. do 4 eexists. repeat (split; [eassumption|]).
  rewrite !square_squared, !radians_degrees. reflexivity.
Qed.

Lemma Forall2_In_left {A B : Type} (R : A -> B -> Prop) (l1 : list A)
      (l2 : list B) (a : A) :
  Forall2 R l1 l2 -> In a l1 -> exists b, In b l2 /\ R a b.
Proof.
  induction 1 as [|x y l1 l2 Hxy _ IH]; simpl; intros Hin; [contradiction|].
  destruct Hin as [->|Hin].
  - exists y. auto.
  - destruct (IH Hin) as [b [Hb Hr]]. exists b. auto.
Qed.

End Facts.



(* ================================================================== *)
(** * The place ranking adapter: [find_nearby_places_google] *)
(* ================================================================== *)

Section PlaceRanking.

Import Main Spec Facts Sample.

Variable w : world.
Variables latitude longitude : pyval.
Variable query : string.
Variable radius_m : Z.

Let found := find_nearby_places_google w latitude longitude query radius_m.

(** C3, as the code has it.  With the places key configured, a failure of
    the request, of the status check or of the decoding of the body, and
    any exception raised while the decoded body is processed (a body that
    is not an object is one case), makes the call return a text that
    carries the message of the cause; the call returns a value in every
    case.  Without the key the call raises before the request is made. *)
Theorem find_nearby_failures_become_text :
  key_missing (GOOGLE_MAPS_API_KEY w) = false ->
  let params := {| location := (latitude, longitude); radius := radius_m;
                   keyword := query; key := GOOGLE_MAPS_API_KEY w |} in
  (forall e, requests_get w api_url params = Raise e ->
             found = Return (IsText (place_search_error e)))
  /\ (forall resp e, requests_get w api_url params = Return resp ->
                     raise_for_status resp = Raise e ->
                     found = Return (IsText (place_search_error e)))
  /\ (forall resp e, requests_get w api_url params = Return resp ->
                     raise_for_status resp = Return tt ->
                     json resp = Raise e ->
                     found = Return (IsText (place_search_error e)))
  /\ (forall resp data, requests_get w api_url params = Return resp ->
                        raise_for_status resp = Return tt ->
                        json resp = Return data ->
                        (forall d, data <> PDict d) ->
                        exists msg,
                          found = Return (IsText
                            ("An error occurred while parsing Google Maps data: "
                               ++ msg)))
  /\ (forall e, try_body w latitude longitude query radius_m = Raise e ->
                found = Return (IsText (place_search_error e)))
  /\ (exists out, found = Return out).
Proof.
  intros Hkey params.
  assert (Hconv : forall e, try_body w latitude longitude query radius_m = Raise e ->
                            found = Return (IsText (place_search_error e))).
  { intros e He. unfold found, find_nearby_places_google, place_search_error.
    rewrite Hkey, He. destruct (is_RequestException e); reflexivity. }
  repeat split.
  - intros e He. apply Hconv. unfold try_body. fold params. rewrite He. reflexivity.
  - intros resp e Hr He. apply Hconv. unfold try_body. fold params.
    rewrite Hr. simpl. rewrite He. reflexivity.
  - intros resp e Hr Hs He. apply Hconv. unfold try_body. fold params.
    rewrite Hr. simpl. rewrite Hs. simpl. rewrite He. reflexivity.
  - intros resp data Hr Hs Hj Hd.
    exists ("'" ++ type_name data ++ "' object has no attribute 'get'")%string.
    unfold found, find_nearby_places_google, try_body. fold params.
    rewrite Hkey, Hr. simpl. rewrite Hs. simpl. rewrite Hj. simpl.
    destruct data; try reflexivity. exfalso. apply (Hd d). reflexivity.
  - exact Hconv.
  - unfold found, find_nearby_places_google. rewrite Hkey.
    destruct (try_body w latitude longitude query radius_m) as [df|e].
    + eexists; reflexivity.
    + destruct (is_RequestException e); eexists; reflexivity.
Qed.

(** C5.  When the places API reports no candidate (an empty ['results']
    list, or none at all), the call returns the empty frame, a value of the
    success kind and not a text. *)
Theorem find_nearby_no_candidates (results : pyval) :
  key_missing (GOOGLE_MAPS_API_KEY w) = false ->
  upstream_results w latitude longitude query radius_m results ->
  truthy results = false ->
  found = Return (IsFrame empty_frame)
  /\ rows empty_frame = []
  /\ forall text, found <> Return (IsText text).
Proof.
  intros Hkey Hup Hfalse.
  assert (H : found = Return (IsFrame empty_frame)).
  { unfold found, find_nearby_places_google. rewrite Hkey.
    rewrite (try_body_results _ _ _ _ _ _ Hup), Hfalse. reflexivity. }
  split; [exact H | split; [reflexivity|]].
  intros text. rewrite H. discriminate.
Qed.

End PlaceRanking.

(* ================================================================== *)
(** * One candidate: distance, rating and coordinates *)
(* ================================================================== *)

Section Candidate.

Import Main Spec Facts Sample.

Variable w : world.
Variables latitude longitude : pyval.

(** C7.  The distance stored in a candidate's record is the haversine
    distance of the specification, computed in binary64 from the query
    point and the candidate's coordinates, all four given in degrees.  The
    specification's formula has its own constant pi, its own conversion to
    radians and its own squaring; the code's are shown equal to them. *)
Theorem distance_is_haversine (place : pyval) (r : place_row) :
  place_entry w latitude longitude place = Return r ->
  exists lat lng x1 y1 x2 y2,
    candidate_coordinates place lat lng
    /\ as_double latitude = Return x1 /\ as_double longitude = Return y1
    /\ as_double lat = Return x2 /\ as_double lng = Return y2
    /\ Distance_km r = haversineKm w x1 y1 x2 y2.
Proof.
  unfold place_entry. intros H. invert_binds.
  match goal with
  | D : distance_km _ _ _ _ _ = Return _ |- _ =>
      destruct (distance_km_Return _ _ _ _ _ _ D)
        as (a1 & b1 & a2 & b2 & A1 & B1 & A2 & B2 & Hd)
  end.
  do 2 eexists. exists a1, b1, a2, b2.
  split; [do 2 eexists; repeat split; eassumption|]. simpl. auto.
Qed.

(** C8, as the code has it.  A candidate without a ['rating'] is processed
    exactly as the same candidate with a rating, except that its record
    carries the text 'N/A'; and when the call returns a frame, the frame
    has one row per candidate and this record is one of them. *)
Theorem missing_rating_is_NA (d : list (string * pyval)) :
  dict_lookup "rating" d = None ->
  (forall v,
      place_entry w latitude longitude (PDict d)
      = (r <- place_entry w latitude longitude (PDict (("rating", v) :: d)) ;;
         Return {| Name := Name r; Address := Address r; Rating := PStr "N/A";
                   Distance_km := Distance_km r |}))
  /\ (forall query radius_m items places,
        key_missing (GOOGLE_MAPS_API_KEY w) = false ->
        upstream_results w latitude longitude query radius_m (PList items) ->
        In (PDict d) items ->
        for_places w latitude longitude items [] = Return places ->
        sorting_indexer (map Distance_km places)
                        (argsort w (map Distance_km places)) = true ->
        exists df r,
          find_nearby_places_google w latitude longitude query radius_m
          = Return (IsFrame df)
          /\ List.length (rows df) = List.length items
          /\ place_entry w latitude longitude (PDict d) = Return r
          /\ Rating r = PStr "N/A"
          /\ In r (rows df)).
Proof.
  intros Hrating. split.
  - intros v. unfold place_entry. simpl. rewrite Hrating.
    repeat match goal with
           | |- context [bind ?m _] =>
               match m with
               | Return _ => fail 1
               | _ => destruct m; simpl
               end
           end; reflexivity.
  - intros query radius_m items places Hkey Hup Hin Hloop Hsort.
    pose proof (proj1 (for_places_Forall2 _ _ _ _ _) Hloop) as Hall.
    destruct (Forall2_In_left _ _ _ _ Hall Hin) as [r [Hr Hentry]].
    destruct (sorted_frame w places Hsort) as [Hperm _].
    exists (sort_values w (frame_of places)), r.
    repeat split.
    + rewrite (find_frame _ _ _ _ _ _ places Hkey Hup Hloop).
      destruct places; [contradiction | reflexivity].
    + rewrite (Permutation_length Hperm). apply (for_places_length _ _ _ _ _ Hloop).
    + exact Hentry.
    + revert Hentry. unfold place_entry. simpl. rewrite Hrating.
      intros H. invert_binds. reflexivity.
    + apply (Permutation_in _ (Permutation_sym Hperm)). exact Hr.
Qed.

(** C9, as the code has it.  A candidate whose entry leaves the
    coordinates out (no ['geometry'] key, no ['location'] key in it, or
    neither ['lat'] nor ['lng']) is processed with latitude 0 and
    longitude 0: its record is the one of the point (0, 0), the distance
    stored is the haversine distance from the query point to (0, 0), and
    when the call returns a frame, the frame has one row per candidate and
    this record's distance is in its distance column.  A candidate whose
    geometry or location is [null] gets no default: processing it raises
    an [AttributeError]. *)
Theorem missing_coordinates_default_to_zero (d : list (string * pyval)) :
  lacks_coordinates d ->
  place_entry w latitude longitude (PDict d)
  = (dist <- distance_km w latitude longitude (PInt 0) (PInt 0) ;;
     Return {| Name := get_or d "name" (PStr "N/A");
               Address := get_or d "vicinity" (PStr "N/A");
               Rating := get_or d "rating" (PStr "N/A");
               Distance_km := dist |})
  /\ (forall r,
        place_entry w latitude longitude (PDict d) = Return r ->
        exists x1 y1,
          as_double latitude = Return x1 /\ as_double longitude = Return y1
          /\ Distance_km r = haversineKm w x1 y1 (of_Z 0) (of_Z 0))
  /\ (forall query radius_m items places,
        key_missing (GOOGLE_MAPS_API_KEY w) = false ->
        upstream_results w latitude longitude query radius_m (PList items) ->
        In (PDict d) items ->
        for_places w latitude longitude items [] = Return places ->
        sorting_indexer (map Distance_km places)
                        (argsort w (map Distance_km places)) = true ->
        exists df r,
          find_nearby_places_google w latitude longitude query radius_m
          = Return (IsFrame df)
          /\ List.length (rows df) = List.length items
          /\ place_entry w latitude longitude (PDict d) = Return r
          /\ In (Distance_km r) (map Distance_km (rows df)))
  /\ (forall d',
        null_coordinates d' ->
        place_entry w latitude longitude (PDict d')
        = Raise (Exn AttributeError "'NoneType' object has no attribute 'get'")).
Proof.
  intros Hlack.
  assert (Heq : place_entry w latitude longitude (PDict d)
                = (dist <- distance_km w latitude longitude (PInt 0) (PInt 0) ;;
                   Return {| Name := get_or d "name" (PStr "N/A");
                             Address := get_or d "vicinity" (PStr "N/A");
                             Rating := get_or d "rating" (PStr "N/A");
                             Distance_km := dist |})).
  { unfold place_entry, get_or. simpl.
    destruct Hlack as [Hg | (g & Hg & [Hl | (l & Hl & Hlat & Hlng)])].
    - rewrite Hg. reflexivity.
    - rewrite Hg. simpl. rewrite Hl. reflexivity.
    - rewrite Hg. simpl. rewrite Hl. simpl. rewrite Hlat, Hlng. reflexivity. }
  split; [exact Heq|]. split; [|split].
  - intros r Hr. rewrite Heq in Hr. invert_binds.
    match goal with
    | D : distance_km _ _ _ _ _ = Return _ |- _ =>
        destruct (distance_km_Return _ _ _ _ _ _ D)
          as (a1 & b1 & a2 & b2 & A1 & B1 & A2 & B2 & Hd)
    end.
    exists a1, b1. simpl in A2, B2. inversion A2; inversion B2; subst.
    repeat split; assumption.
  - intros query radius_m items places Hkey Hup Hin Hloop Hsort.
    pose proof (proj1 (for_places_Forall2 _ _ _ _ _) Hloop) as Hall.
    destruct (Forall2_In_left _ _ _ _ Hall Hin) as [r [Hr Hentry]].
    destruct (sorted_frame w places Hsort) as [Hperm _].
    exists (sort_values w (frame_of places)), r.
    repeat split.
    + rewrite (find_frame _ _ _ _ _ _ places Hkey Hup Hloop).
      destruct places; [contradiction | reflexivity].
    + rewrite (Permutation_length Hperm). apply (for_places_length _ _ _ _ _ Hloop).
    + exact Hentry.
    + apply in_map. apply (Permutation_in _ (Permutation_sym Hperm)). exact Hr.
  - intros d' [Hg | (g & Hg & Hl)]; unfold place_entry; simpl.
    + rewrite Hg. reflexivity.
    + rewrite Hg. simpl. rewrite Hl. reflexivity.
Qed.

End Candidate.

(* ================================================================== *)
(** * The triage analysis: [get_ai_triage_analysis] *)
(* ================================================================== *)

Section Triage.

Import Main Spec Facts.

Variable w : world.

(** C1, as the code has it.  When the model's output decodes to an object
    whose fields have the declared types, the analysis succeeds and the
    result carries the urgency text unchanged, whatever that text is: the
    field is declared as a string and is not compared with the three
    urgency values. *)
Theorem analysis_keeps_any_urgency
        (patient_text language out : string) (d : list (string * pyval))
        (u : string) (pc : list string) (sp : string)
        (sc rt : option (list string)) (ex : string) :
  llm_invoke w patient_text language = Return out ->
  parse_json w out = Return (PDict d) ->
  dict_lookup "urgency" d = Some (PStr u) ->
  field_str_list d "possible_causes" = Return pc ->
  field_str d "suggested_specialty" = Return sp ->
  field_opt_str_list d "self_care_tips" = Return sc ->
  field_opt_str_list d "recommended_tests" = Return rt ->
  field_str d "explanation" = Return ex ->
  get_ai_triage_analysis w patient_text language
  = IsTriage {| urgency := u; possible_causes := pc; suggested_specialty := sp;
                self_care_tips := sc; recommended_tests := rt;
                explanation := ex |}.
Proof.
  intros Hllm Hjson Hu Hpc Hsp Hsc Hrt Hex.
  unfold get_ai_triage_analysis, chain_invoke, validate_TriageResponse.
  rewrite Hllm. simpl. rewrite Hjson. simpl.
  unfold field_str at 1. rewrite Hu. simpl.
  rewrite Hpc. simpl. rewrite Hsp. simpl. rewrite Hsc. simpl.
  rewrite Hrt. simpl. rewrite Hex. reflexivity.
Qed.

End Triage.

(* ================================================================== *)
(** * The script: what a run calls and shows *)
(* ================================================================== *)

Module Runs.

Import Main App.

Lemma quiet_ret {A : Type} (a : A) : quiet (ret a).
Proof. intros s H; exact H. Qed.

Lemma quiet_stop {A : Type} : quiet (@stop A).
Proof. intros s H; exact H. Qed.

Lemma quiet_call {A : Type} (r : result A) : quiet (call r).
Proof. intros s H; unfold call; destruct r; exact H. Qed.

Lemma quiet_get_analysis_result : quiet get_analysis_result.
Proof. intros s H; exact H. Qed.

Lemma quiet_get_user_location : quiet get_user_location.
Proof. intros s H; exact H. Qed.

Lemma quiet_set_analysis_result (r : option TriageResponse) :
  quiet (set_analysis_result r).
Proof. intros s H; exact H. Qed.

Lemma quiet_set_user_location (l : option (pyval * pyval)) :
  quiet (set_user_location l).
Proof. intros s H; exact H. Qed.

Lemma quiet_emit (ev : event) : not_analysis_call ev -> quiet (emit ev).
Proof.
  intros Hev s H. simpl. apply Forall_app. split; [exact H|].
  constructor; [exact Hev | constructor].
Qed.

Lemma quiet_and_then {A B : Type} (m : script A) (k : A -> script B) :
  quiet m -> (forall a, quiet (k a)) -> quiet (and_then m k).
Proof.
  intros Hm Hk s H. unfold and_then. specialize (Hm s H).
  destruct (m s) as [[a| |e] s']; simpl in *; [|exact Hm|exact Hm].
  apply Hk. exact Hm.
Qed.

Lemma quiet_call_then {A B : Type} (r : result A) (k : A -> script B) :
  (forall a, r = Return a -> quiet (k a)) -> quiet (and_then (call r) k).
Proof.
  intros Hk s H. unfold and_then, call. destruct r as [a|e]; simpl.
  - apply (Hk a eq_refl). exact H.
  - exact H.
Qed.

Ltac quiet_step :=
  first
    [ apply quiet_ret
    | apply quiet_stop
    | apply quiet_call
    | apply quiet_get_analysis_result
    | apply quiet_get_user_location
    | apply quiet_set_analysis_result
    | apply quiet_set_user_location
    | apply quiet_emit; exact I
    | apply quiet_and_then; [|intros]
    | match goal with
      | |- quiet (match ?x with _ => _ end) => destruct x
      | |- quiet (if ?b then _ else _) => destruct b
      end ].

Ltac quiet_all := repeat quiet_step.

Lemma quiet_load_models (w : world) : quiet (load_models w).
Proof. unfold load_models. quiet_all. Qed.

Lemma quiet_sidebar (pg : page) : quiet (sidebar pg).
Proof. unfold sidebar, browser_location, city_location. quiet_all. Qed.

Lemma quiet_show_places (w : world) (pg : page) (lat lon : pyval)
      (query not_found : string) :
  quiet (show_places w pg lat lon query not_found).
Proof. unfold show_places. quiet_all. Qed.

Lemma quiet_report (w : world) (pg : page) : quiet (report w pg).
Proof.
  unfold report.
  repeat first [ apply quiet_show_places | quiet_step ].
Qed.

(** The request of lines 79-99 when the text that comes back from the
    transcription contains "Error:". *)
Lemma failed_transcription (w : world) (pg : page) (recording text : string) :
  transcribe_audio w (tmp_name pg recording) (language_map (selected_language pg))
  = Return text ->
  contains "Error:" text = true ->
  forall s,
    analyze_symptoms w pg recording s
    = (Next tt,
       {| analysis_result := None;
          user_location := user_location s;
          log := log s ++ [StatusUpdate Transcribing;
                           Call_transcribe_audio
                             (tmp_name pg recording)
                             (language_map (selected_language pg));
                           StatusUpdate TranscriptionFailed;
                           StError text] |}).
Proof.
  intros Ht Hc s. unfold analyze_symptoms, and_then, emit, call,
                    set_analysis_result. simpl.
  rewrite Ht. simpl. rewrite Hc. simpl.
  repeat rewrite <- app_assoc. reflexivity.
Qed.

Lemma quiet_main_flow_failed (w : world) (pg : page) (recording text : string) :
  uploaded_file pg = Some recording ->
  transcribe_audio w (tmp_name pg recording) (language_map (selected_language pg))
  = Return text ->
  contains "Error:" text = true ->
  quiet (main_flow w pg).
Proof.
  intros Hup Ht Hc. unfold main_flow. rewrite Hup.
  apply quiet_and_then; [apply quiet_get_user_location|]. intros loc.
  apply quiet_and_then; [quiet_all|]. intros _.
  destruct (analyze_clicked pg && _); [|apply quiet_ret].
  intros s H. rewrite (failed_transcription w pg recording text Ht Hc s). simpl.
  apply Forall_app. split; [exact H|]. repeat constructor.
Qed.

Lemma failed_transcription_run (w : world) (pg : page) (recording text : string) :
  uploaded_file pg = Some recording ->
  transcribe_audio w (tmp_name pg recording) (language_map (selected_language pg))
  = Return text ->
  contains "Error:" text = true ->
  forall analysis location,
    Forall not_analysis_call (log (snd (run w pg analysis location))).
Proof.
  intros Hup Ht Hc analysis location. unfold run, app.
  assert (Q : quiet (load_models w ;;; sidebar pg ;;; main_flow w pg ;;;
                     report w pg ;;; emit (StWarning disclaimer))).
  { apply quiet_and_then; [apply quiet_load_models|]. intros _.
    apply quiet_and_then; [apply quiet_sidebar|]. intros _.
    apply quiet_and_then;
      [apply (quiet_main_flow_failed w pg recording text Hup Ht Hc)|]. intros _.
    apply quiet_and_then; [apply quiet_report|]. intros _.
    apply quiet_emit. exact I. }
  apply Q. constructor.
Qed.

End Runs.

Section Pipeline.

Import Main App Spec Runs.

Variable w : world.
Variable pg : page.

(** C4, as the code has it.  Without the language model's key the script
    reports the error at start-up and stops: the run shows that one
    message and calls nothing.  The places key is not looked at at
    start-up: without it, every call of [find_nearby_places_google] raises
    a [ValueError], whatever the places API would have answered. *)
Theorem missing_credentials :
  (key_missing (GOOGLE_API_KEY w) = true ->
   forall analysis location,
     run w pg analysis location
     = (Halt, {| analysis_result := analysis;
                 user_location := location;
                 log := [StError "GOOGLE_API_KEY for Gemini not found!"] |}))
  /\ (key_missing (GOOGLE_MAPS_API_KEY w) = true ->
      forall latitude longitude query radius_m,
        find_nearby_places_google w latitude longitude query radius_m
        = Raise (Exn ValueError "GOOGLE_MAPS_API_KEY not found!")).
Proof.
  split.
  - intros Hkey analysis location.
    unfold run, app, and_then, load_models, load_ai_model.
    rewrite Hkey. reflexivity.
  - intros Hkey latitude longitude query radius_m.
    unfold find_nearby_places_google. rewrite Hkey. reflexivity.
Qed.

(** C6.  When the recogniser reports that it could not understand the
    recording, [transcribe_audio] returns the text of that condition, the
    request ends with the status "Transcription Failed" and that text as
    its error, and the run never calls the analysis. *)
Theorem unintelligible_audio_skips_analysis (recording : string) (e : exn) :
  uploaded_file pg = Some recording ->
  recognize w (tmp_name pg recording) (language_map (selected_language pg))
  = Raise e ->
  exn_cls e = UnknownValueError ->
  transcribe_audio w (tmp_name pg recording) (language_map (selected_language pg))
  = Return "Error: Could not understand the audio."
  /\ (forall s,
         analyze_symptoms w pg recording s
         = (Next tt,
            {| analysis_result := None;
               user_location := user_location s;
               log := log s ++ [StatusUpdate Transcribing;
                                Call_transcribe_audio
                                  (tmp_name pg recording)
                                  (language_map (selected_language pg));
                                StatusUpdate TranscriptionFailed;
                                StError "Error: Could not understand the audio."] |}))
  /\ (forall analysis location,
         Forall not_analysis_call (log (snd (run w pg analysis location)))).
Proof.
  intros Hup Hrec Hcls.
  assert (Ht : transcribe_audio w (tmp_name pg recording)
                                (language_map (selected_language pg))
               = Return "Error: Could not understand the audio.").
  { unfold transcribe_audio. rewrite Hrec, Hcls. reflexivity. }
  split; [exact Ht|]. split.
  - apply failed_transcription; [exact Ht | reflexivity].
  - apply (failed_transcription_run w pg recording _ Hup Ht). reflexivity.
Qed.

(** C10.  Whenever the text that comes back from the transcription
    contains "Error:", be it one of the two texts [transcribe_audio]
    writes itself or a transcript the recogniser returned, the request
    ends with the status "Transcription Failed" and that text as its
    error, and the run never calls the analysis. *)
Theorem error_substring_means_failure (recording text : string) :
  uploaded_file pg = Some recording ->
  transcribe_audio w (tmp_name pg recording) (language_map (selected_language pg))
  = Return text ->
  contains "Error:" text = true ->
  (forall s,
      analyze_symptoms w pg recording s
      = (Next tt,
         {| analysis_result := None;
            user_location := user_location s;
            log := log s ++ [StatusUpdate Transcribing;
                             Call_transcribe_audio
                               (tmp_name pg recording)
                               (language_map (selected_language pg));
                             StatusUpdate TranscriptionFailed;
                             StError text] |}))
  /\ (forall analysis location,
         Forall not_analysis_call (log (snd (run w pg analysis location)))).
Proof.
  intros Hup Ht Hc. split.
  - apply failed_transcription; assumption.
  - apply (failed_transcription_run w pg recording text Hup Ht Hc).
Qed.

End Pipeline.

(* ================================================================== *)
(** * Runs of the model *)
(* ================================================================== *)

Section SampleRuns.

Import Main App Spec Facts Runs Sample.

(** The request fails on the network: the call returns the text of the
    failure. *)
Lemma find_nearby_failures_become_text_run :
  find_nearby_places_google
    (offline ranked_world (Exn ConnectionError "Max retries exceeded"))
    delhi_lat delhi_lon "dentist" 10000
  = Return (IsText "Error connecting to Google Maps API: Max retries exceeded").
Proof.
  exact (proj1 (find_nearby_failures_become_text
                  (offline ranked_world (Exn ConnectionError "Max retries exceeded"))
                  delhi_lat delhi_lon "dentist" 10000 eq_refl)
               (Exn ConnectionError "Max retries exceeded") eq_refl).
Defined.

(** The same failing network, without the places key: the call returns
    nothing and raises to its caller. *)
Lemma missing_key_is_raised_not_returned :
  key_missing
    (GOOGLE_MAPS_API_KEY
       (offline (without_maps_key ranked_world)
                (Exn ConnectionError "Max retries exceeded"))) = true
  /\ find_nearby_places_google
       (offline (without_maps_key ranked_world)
                (Exn ConnectionError "Max retries exceeded"))
       delhi_lat delhi_lon "dentist" 10000
     = Raise (Exn ValueError "GOOGLE_MAPS_API_KEY not found!")
  /\ forall out,
      find_nearby_places_google
        (offline (without_maps_key ranked_world)
                 (Exn ConnectionError "Max retries exceeded"))
        delhi_lat delhi_lon "dentist" 10000
      <> Return out.
Proof.
  split; [reflexivity|]. split; [reflexivity|]. intros out. discriminate.
Qed.

(** The API reports no candidate: the call returns the empty frame. *)
Lemma find_nearby_no_candidates_run :
  find_nearby_places_google empty_world delhi_lat delhi_lon "dentist" 10000
  = Return (IsFrame empty_frame)
  /\ rows empty_frame = []
  /\ forall text,
      find_nearby_places_google empty_world delhi_lat delhi_lon "dentist" 10000
      <> Return (IsText text).
Proof.
  apply (find_nearby_no_candidates empty_world delhi_lat delhi_lon "dentist" 10000
                                   (PList [])).
  - reflexivity.
  - do 2 eexists. repeat split; reflexivity.
  - reflexivity.
Defined.

(** The record of the nearer clinic and its distance. *)
Lemma distance_is_haversine_run :
  exists r,
    place_entry ranked_world delhi_lat delhi_lon near = Return r
    /\ exists lat lng x1 y1 x2 y2,
        candidate_coordinates near lat lng
        /\ as_double delhi_lat = Return x1 /\ as_double delhi_lon = Return y1
        /\ as_double lat = Return x2 /\ as_double lng = Return y2
        /\ Distance_km r = haversineKm ranked_world x1 y1 x2 y2.
Proof.
  eexists. split.
  - vm_compute. reflexivity.
  - apply (distance_is_haversine ranked_world delhi_lat delhi_lon near).
    vm_compute. reflexivity.
Defined.

(** The farther clinic has no rating: its row is in the frame, with 'N/A'. *)
Lemma missing_rating_is_NA_run :
  dict_lookup "rating" far_fields = None
  /\ exists df r,
      find_nearby_places_google ranked_world delhi_lat delhi_lon "dentist" 10000
      = Return (IsFrame df)
      /\ List.length (rows df) = List.length [far; near]
      /\ place_entry ranked_world delhi_lat delhi_lon (PDict far_fields) = Return r
      /\ Rating r = PStr "N/A"
      /\ In r (rows df).
Proof.
  split; [reflexivity|].
  eapply (proj2 (missing_rating_is_NA ranked_world delhi_lat delhi_lon far_fields
                                      eq_refl)
                "dentist" 10000%Z [far; near]).
  - reflexivity.
  - do 2 eexists. repeat split; reflexivity.
  - left. reflexivity.
  - vm_compute. reflexivity.
  - vm_compute. reflexivity.
Defined.

(** The text stored for a missing rating is 'N/A', not "unknown". *)
Lemma missing_rating_is_not_unknown :
  dict_lookup "rating" far_fields = None
  /\ exists r,
      place_entry ranked_world delhi_lat delhi_lon far = Return r
      /\ Rating r = PStr "N/A"
      /\ Rating r <> PStr "unknown".
Proof.
  split; [reflexivity|]. eexists. split; [vm_compute; reflexivity|].
  split; [reflexivity | discriminate].
Qed.

(** A candidate with a name and an address only, found after the nearer
    clinic. *)
Lemma missing_coordinates_default_to_zero_run :
  lacks_coordinates unlocated_fields
  /\ place_entry unlocated_world delhi_lat delhi_lon unlocated
     = Return {| Name := PStr "Somewhere"; Address := PStr "Unknown Road";
                 Rating := PStr "N/A";
                 Distance_km := S754_finite false 4798692930348524 (-39) |}
  /\ (exists x1 y1,
        as_double delhi_lat = Return x1 /\ as_double delhi_lon = Return y1
        /\ S754_finite false 4798692930348524 (-39)
           = haversineKm unlocated_world x1 y1 (of_Z 0) (of_Z 0))
  /\ (exists df r,
        find_nearby_places_google
          unlocated_world delhi_lat delhi_lon "dentist" 10000
        = Return (IsFrame df)
        /\ List.length (rows df) = List.length [unlocated; near]
        /\ place_entry unlocated_world delhi_lat delhi_lon
                       (PDict unlocated_fields) = Return r
        /\ In (Distance_km r) (map Distance_km (rows df))).
Proof.
  assert (L : lacks_coordinates unlocated_fields) by (left; reflexivity).
  split; [exact L|].
  assert (E : place_entry unlocated_world delhi_lat delhi_lon unlocated
              = Return {| Name := PStr "Somewhere"; Address := PStr "Unknown Road";
                          Rating := PStr "N/A";
                          Distance_km := S754_finite false 4798692930348524 (-39) |})
    by (vm_compute; reflexivity).
  split; [exact E|]. split.
  - exact (proj1 (proj2 (missing_coordinates_default_to_zero
                           unlocated_world delhi_lat delhi_lon unlocated_fields L))
                 _ E).
  - eapply (proj1 (proj2 (proj2 (missing_coordinates_default_to_zero
                                   unlocated_world
                                   delhi_lat delhi_lon unlocated_fields L)))
                  "dentist" 10000%Z [unlocated; near]).
    + reflexivity.
    + do 2 eexists. repeat split; reflexivity.
    + left. reflexivity.
    + vm_compute. reflexivity.
    + vm_compute. reflexivity.
Defined.

(** A candidate whose geometry is [null] has no coordinates either, and
    gets no default: the candidate raises, and the whole call returns the
    text of the parsing handler instead of the records. *)
Lemma null_geometry_gets_no_default :
  dict_lookup "geometry" null_geometry_fields = Some PNone
  /\ place_entry null_geometry_world delhi_lat delhi_lon
                 (PDict null_geometry_fields)
     = Raise (Exn AttributeError "'NoneType' object has no attribute 'get'")
  /\ find_nearby_places_google null_geometry_world delhi_lat delhi_lon
                               "dentist" 10000
     = Return (IsText ("An error occurred while parsing Google Maps data: "
                         ++ "'NoneType' object has no attribute 'get'")).
Proof.
  split; [reflexivity|]. split; vm_compute; reflexivity.
Qed.

(** The model answers with one of the three urgency values. *)
Lemma analysis_keeps_any_urgency_run :
  get_ai_triage_analysis ranked_world complaint "English (India)"
  = IsTriage {| urgency := "Emergency";
                possible_causes := ["Angina"; "Panic attack"];
                suggested_specialty := "Cardiologist";
                self_care_tips := None;
                recommended_tests := Some ["ECG"];
                explanation := "Chest pain with breathlessness." |}.
Proof.
  eapply (analysis_keeps_any_urgency ranked_world); reflexivity.
Defined.

(** The model answers "Critical", which is none of the three values: the
    analysis succeeds all the same. *)
Lemma urgency_outside_the_three_values_is_accepted :
  ~ In "Critical" urgency_values
  /\ exists r,
      get_ai_triage_analysis critical_world complaint "English (India)"
      = IsTriage r
      /\ urgency r = "Critical".
Proof.
  split.
  - simpl. intros [H|[H|[H|[]]]]; discriminate.
  - eexists. split; reflexivity.
Qed.

(** Without the model's key the run stops at once; without the places key
    the lookup raises. *)
Lemma missing_credentials_run :
  run (without_llm_key ranked_world) visit None (Some (delhi_lat, delhi_lon))
  = (Halt, {| analysis_result := None;
              user_location := Some (delhi_lat, delhi_lon);
              log := [StError "GOOGLE_API_KEY for Gemini not found!"] |})
  /\ find_nearby_places_google (without_maps_key ranked_world)
                               delhi_lat delhi_lon "dentist" 10000
     = Raise (Exn ValueError "GOOGLE_MAPS_API_KEY not found!").
Proof.
  split.
  - exact (proj1 (missing_credentials (without_llm_key ranked_world) visit)
                 eq_refl None (Some (delhi_lat, delhi_lon))).
  - exact (proj2 (missing_credentials (without_maps_key ranked_world) visit)
                 eq_refl delhi_lat delhi_lon "dentist" 10000%Z).
Defined.

(** Without the places key nothing is reported at start-up: the recording
    is transcribed and analysed, and the run ends with the [ValueError] of
    the first lookup. *)
Lemma missing_places_key_is_found_late :
  key_missing (GOOGLE_MAPS_API_KEY (without_maps_key ranked_world)) = true
  /\ exists st,
      run (without_maps_key ranked_world) visit None (Some (delhi_lat, delhi_lon))
      = (Crash (Exn ValueError "GOOGLE_MAPS_API_KEY not found!"), st)
      /\ log st
         = [StatusUpdate Transcribing;
            Call_transcribe_audio "/tmp/tmpvoicedoc.wav" "en-IN";
            StatusUpdate AnalyzingSymptoms;
            Call_get_ai_triage_analysis complaint "English (India)";
            StatusUpdate AnalysisComplete;
            StError emergency_banner;
            Call_find_nearby_places_google delhi_lat delhi_lon "hospital emergency"].
Proof.
  split; [reflexivity|]. eexists. split; vm_compute; reflexivity.
Qed.

(** The recogniser could not understand the recording. *)
Lemma unintelligible_audio_skips_analysis_run :
  transcribe_audio unintelligible_world "/tmp/tmpvoicedoc.wav" "en-IN"
  = Return "Error: Could not understand the audio."
  /\ (forall s,
         analyze_symptoms unintelligible_world visit "RIFF-WAVE-recording" s
         = (Next tt,
            {| analysis_result := None;
               user_location := user_location s;
               log := log s ++ [StatusUpdate Transcribing;
                                Call_transcribe_audio "/tmp/tmpvoicedoc.wav" "en-IN";
                                StatusUpdate TranscriptionFailed;
                                StError "Error: Could not understand the audio."] |}))
  /\ (forall analysis location,
         Forall not_analysis_call
                (log (snd (run unintelligible_world visit analysis location)))).
Proof.
  apply (unintelligible_audio_skips_analysis
           unintelligible_world visit "RIFF-WAVE-recording"
           (Exn UnknownValueError "")); reflexivity.
Defined.

(** The recogniser returns a transcript that quotes an error message. *)
Lemma error_substring_means_failure_run :
  recognize printer_world "/tmp/tmpvoicedoc.wav" "en-IN"
  = Return "My monitor shows Error: 12 and my eyes hurt"
  /\ (forall s,
         analyze_symptoms printer_world visit "RIFF-WAVE-recording" s
         = (Next tt,
            {| analysis_result := None;
               user_location := user_location s;
               log := log s ++ [StatusUpdate Transcribing;
                                Call_transcribe_audio "/tmp/tmpvoicedoc.wav" "en-IN";
                                StatusUpdate TranscriptionFailed;
                                StError "My monitor shows Error: 12 and my eyes hurt"] |}))
  /\ (forall analysis location,
         Forall not_analysis_call
                (log (snd (run printer_world visit analysis location)))).
Proof.
  split; [reflexivity|].
  apply (error_substring_means_failure
           printer_world visit "RIFF-WAVE-recording"
           "My monitor shows Error: 12 and my eyes hurt"); reflexivity.
Defined.

End SampleRuns.

(* ================================================================== *)
(** * Further properties of [main.py] *)
(* ================================================================== *)

Module MainFacts.

Import Main Spec Facts.

(** ** Strings *)

Lemma prefix_split (sub s : string) :
  String.prefix sub s = true <-> exists post, s = (sub ++ post)%string.
Proof.
  revert s. induction sub as [|c sub IH]; intros s; simpl.
  - split; [intros _; exists s; reflexivity | intros _; destruct s; reflexivity].
  - destruct s as [|c' s]; simpl.
    + split; [discriminate | intros [post H]; discriminate].
    + destruct (Ascii.ascii_dec c c') as [->|Hne].
      * rewrite IH. split; intros [post H]; exists post; congruence.
      * split; [discriminate | intros [post H]; congruence].
Qed.

(** ** Validation of the model's object *)

Lemma all_str_strings (k : string) (l : list pyval) (ss : list string) :
  all_str k l = Return ss <-> l = map PStr ss.
Proof.
  revert ss. induction l as [|v l IH]; intros ss; simpl.
  - split; intros H.
    + inversion H. reflexivity.
    + destruct ss; [reflexivity | discriminate].
  - destruct v; try (split; [discriminate | destruct ss; discriminate]).
    split; intros H.
    + destruct (all_str k l) as [ss'|e] eqn:E; simpl in H; [|discriminate].
      inversion H; subst. simpl. f_equal. apply IH. reflexivity.
    + destruct ss as [|s' ss]; [discriminate|]. simpl in H. inversion H; subst.
      rewrite (proj2 (IH ss) eq_refl). reflexivity.
Qed.

Lemma field_str_lookup (d : list (string * pyval)) (k s : string) :
  field_str d k = Return s <-> dict_lookup k d = Some (PStr s).
Proof.
  unfold field_str. destruct (dict_lookup k d) as [[]|]; split; intros H;
    try discriminate; congruence.
Qed.

Lemma field_str_list_lookup (d : list (string * pyval)) (k : string)
      (ss : list string) :
  field_str_list d k = Return ss <-> dict_lookup k d = Some (json_of_strings ss).
Proof.
  unfold field_str_list, json_of_strings.
  destruct (dict_lookup k d) as [[]|]; split; intros H; try discriminate.
  - apply all_str_strings in H. subst. reflexivity.
  - inversion H. apply all_str_strings. reflexivity.
Qed.

Lemma field_opt_str_list_lookup (d : list (string * pyval)) (k : string)
      (o : option (list string)) :
  field_opt_str_list d k = Return o
  <-> dict_lookup k d = Some (json_of_optional o).
Proof.
  unfold field_opt_str_list, json_of_optional, json_of_strings.
  destruct (dict_lookup k d) as [[]|]; split; intros H; try discriminate;
    try (destruct o; discriminate).
  - inversion H. reflexivity.
  - destruct o; [discriminate | reflexivity].
  - destruct (all_str k l) as [ss|e] eqn:E; simpl in H; [|discriminate].
    inversion H; subst. apply all_str_strings in E. subst. reflexivity.
  - destruct o as [ss|]; [|discriminate]. inversion H.
    rewrite (proj2 (all_str_strings k (map PStr ss) ss) eq_refl). reflexivity.
Qed.

Lemma validate_encodes (obj : pyval) (r : TriageResponse) :
  validate_TriageResponse obj = Return r
  <-> exists d, obj = PDict d /\ encodes d r.
Proof.
  unfold encodes. split.
  - destruct obj; try discriminate. simpl. intros H. invert_binds.
    exists d. split; [reflexivity|]. simpl.
    repeat match goal with
           | H : field_str _ _ = Return _ |- _ => apply field_str_lookup in H
           | H : field_str_list _ _ = Return _ |- _ =>
               apply field_str_list_lookup in H
           | H : field_opt_str_list _ _ = Return _ |- _ =>
               apply field_opt_str_list_lookup in H
           end.
    repeat split; assumption.
  - intros (d & -> & Hu & Hpc & Hsp & Hsc & Hrt & Hex). simpl.
    rewrite (proj2 (field_str_lookup _ _ _) Hu). simpl.
    rewrite (proj2 (field_str_list_lookup _ _ _) Hpc). simpl.
    rewrite (proj2 (field_str_lookup _ _ _) Hsp). simpl.
    rewrite (proj2 (field_opt_str_list_lookup _ _ _) Hsc). simpl.
    rewrite (proj2 (field_opt_str_list_lookup _ _ _) Hrt). simpl.
    rewrite (proj2 (field_str_lookup _ _ _) Hex). simpl.
    destruct r; reflexivity.
Qed.

(** ** Exceptions of the loop body *)

Lemma bind_Raise {A B : Type} (m : result A) (k : A -> result B) (e : exn) :
  bind m k = Raise e ->
  m = Raise e \/ exists a, m = Return a /\ k a = Raise e.
Proof.
  destruct m as [a|e']; simpl; intros H; [right; exists a; auto | left; congruence].
Qed.

Lemma py_get_local (obj : pyval) (k : string) (dflt : pyval) (e : exn) :
  py_get obj k dflt = Raise e -> is_RequestException e = false.
Proof.
  destruct obj; simpl; intros H; inversion H; reflexivity.
Qed.

Lemma as_double_local (v : pyval) (e : exn) :
  as_double v = Raise e -> is_RequestException e = false.
Proof.
  destruct v; simpl; intros H; try (inversion H; reflexivity).
  destruct (is_inf (of_Z n)); inversion H; reflexivity.
Qed.

Lemma math_1_local (f : float64 -> float64) (x : float64) (e : exn) :
  math_1 f x = Raise e -> is_RequestException e = false.
Proof.
  unfold math_1.
  destruct (is_nan (f x) && negb (is_nan x)); [intros H; inversion H; reflexivity|].
  destruct (is_inf (f x) && is_finite x); intros H; inversion H; reflexivity.
Qed.

Lemma pow2_local (w : world) (x : float64) (e : exn) :
  pow2 w x = Raise e -> is_RequestException e = false.
Proof.
  unfold pow2. destruct (is_finite x && is_inf (square w x));
    intros H; inversion H; reflexivity.
Qed.

Lemma distance_km_local (w : world) (a b c d : pyval) (e : exn) :
  distance_km w a b c d = Raise e -> is_RequestException e = false.
Proof.
  unfold distance_km, radians, math_sin, math_cos, math_asin, math_sqrt.
  intros H.
  repeat match type of H with
         | bind ?m _ = Raise _ =>
             apply bind_Raise in H; destruct H as [H | [? [_ H]]]
         end;
    try discriminate;
    eauto using as_double_local, math_1_local, pow2_local.
Qed.

Lemma place_entry_local (w : world) (lat lon place : pyval) (e : exn) :
  place_entry w lat lon place = Raise e -> is_RequestException e = false.
Proof.
  unfold place_entry. intros H.
  repeat match type of H with
         | bind ?m _ = Raise _ =>
             apply bind_Raise in H; destruct H as [H | [? [_ H]]]
         end;
    try discriminate;
    eauto using py_get_local, distance_km_local.
Qed.

Lemma for_places_stops (w : world) (lat lon : pyval) (pre post : list pyval)
      (p : pyval) (e : exn) :
  (forall q, In q pre -> exists r, place_entry w lat lon q = Return r) ->
  place_entry w lat lon p = Raise e ->
  forall acc, for_places w lat lon (pre ++ p :: post) acc = Raise e.
Proof.
  intros Hpre Hp. induction pre as [|q pre IH]; intros acc; simpl.
  - rewrite Hp. reflexivity.
  - destruct (Hpre q (or_introl eq_refl)) as [r Hr]. rewrite Hr. simpl.
    apply IH. intros q' Hq'. apply Hpre. right. exact Hq'.
Qed.

(** ** The order of the distance column *)

Lemma SFleb_trans (x y z : float64) :
  SFleb x y = true -> SFleb y z = true -> SFleb x z = true.
Proof.
  unfold SFleb.
  destruct x as [sx|sx| |sx mx ex], y as [sy|sy| |sy my ey],
           z as [sz|sz| |sz mz ez]; simpl;
    try discriminate; try reflexivity;
    try (destruct sx; simpl; try discriminate; try reflexivity);
    try (destruct sy; simpl; try discriminate; try reflexivity);
    try (destruct sz; simpl; try discriminate; try reflexivity);
    change (Pos.compare_cont Eq) with Pos.compare;
    repeat match goal with
           | |- context [(?a ?= ?b)%Z] => destruct (Z.compare_spec a b)
           | |- context [(?a ?= ?b)%positive] => destruct (Pos.compare_spec a b)
           end; simpl; try discriminate; try reflexivity; intros; lia.
Qed.

Lemma na_last_le_trans (x y z : float64) :
  na_last_le x y = true -> na_last_le y z = true -> na_last_le x z = true.
Proof.
  unfold na_last_le. destruct (is_nan z) eqn:Z; [reflexivity|]. simpl.
  intros Hxy Hyz. apply andb_true_iff in Hyz. destruct Hyz as [Hy Hyz].
  apply negb_true_iff in Hy. rewrite Hy in Hxy. simpl in Hxy.
  apply andb_true_iff in Hxy. destruct Hxy as [Hx Hxy]. rewrite Hx. simpl.
  apply (SFleb_trans x y z); assumption.
Qed.

Lemma Sorted_head_least {A : Type} (R : A -> A -> Prop) (x : A) (l : list A) :
  (forall a b c, R a b -> R b c -> R a c) ->
  Sorted R (x :: l) -> Forall (R x) l.
Proof.
  intros Htrans Hs. apply Sorted_StronglySorted in Hs; [|exact Htrans].
  inversion Hs; assumption.
Qed.

Lemma SFleb_refl (x : float64) : is_nan x = false -> SFleb x x = true.
Proof.
  unfold SFleb. destruct x as [s|s| |s m e]; simpl; try discriminate;
    try reflexivity; intros _.
  - destruct s; reflexivity.
  - change (Pos.compare_cont Eq) with Pos.compare.
    destruct s; rewrite Z.compare_refl, Pos.compare_refl; reflexivity.
Qed.

Lemma na_last_le_refl (x : float64) : na_last_le x x = true.
Proof.
  unfold na_last_le. destruct (is_nan x) eqn:N; [reflexivity|]. simpl.
  apply SFleb_refl. exact N.
Qed.

Lemma py_iter_truthy (results : pyval) (items : list pyval) :
  truthy results = true -> py_iter results = Return items -> items <> [].
Proof.
  destruct results; simpl; try discriminate.
  - intros T H. inversion H; subst. apply negb_true_iff in T.
    destruct s; [discriminate|]. simpl. discriminate.
  - intros T H. inversion H; subst. destruct items; [discriminate|]. discriminate.
  - intros T H. inversion H; subst. destruct d; [discriminate|]. simpl. discriminate.
Qed.

End MainFacts.

Section MainProperties.

Import Main Spec Facts MainFacts Sample.

Variable w : world.

(** X1.  The analysis returns a [TriageResponse] exactly when the model
    answered, its text decoded to an object, and the object holds the six
    fields with their JSON types; the result then carries those values,
    read from the object and nothing else. *)
Theorem analysis_returns_what_the_object_holds
        (patient_text language : string) (r : TriageResponse) :
  get_ai_triage_analysis w patient_text language = IsTriage r
  <-> exists out d,
      llm_invoke w patient_text language = Return out
      /\ parse_json w out = Return (PDict d)
      /\ encodes d r.
Proof.
  unfold get_ai_triage_analysis, chain_invoke. split.
  - destruct (llm_invoke w patient_text language) as [out|e] eqn:L; simpl;
      [|discriminate].
    destruct (parse_json w out) as [obj|e] eqn:J; simpl; [|discriminate].
    destruct (validate_TriageResponse obj) as [r'|e] eqn:V; [|discriminate].
    intros H. inversion H; subst.
    apply validate_encodes in V. destruct V as (d & -> & Henc).
    exists out, d. auto.
  - intros (out & d & Hllm & Hjson & Henc). rewrite Hllm. cbn [bind].
    rewrite Hjson. cbn [bind].
    rewrite (proj2 (validate_encodes (PDict d) r)); [reflexivity|].
    exists d. auto.
Qed.

(** X2.  Every failure of the analysis comes back as a text that starts with
    "Error processing AI response: ": a failure of the model call, a
    failure of the JSON decoding, an answer that is not an object, and an
    object without one of the four plain fields. *)
Theorem analysis_failures_become_text (patient_text language : string) :
  let heading := "Error processing AI response: " in
  (forall e, llm_invoke w patient_text language = Raise e ->
             get_ai_triage_analysis w patient_text language
             = IsStr (heading ++ exn_msg e))
  /\ (forall out e, llm_invoke w patient_text language = Return out ->
                    parse_json w out = Raise e ->
                    get_ai_triage_analysis w patient_text language
                    = IsStr (heading ++ exn_msg e))
  /\ (forall out obj,
         llm_invoke w patient_text language = Return out ->
         parse_json w out = Return obj ->
         (forall d, obj = PDict d ->
                    exists k, In k ["urgency"; "possible_causes";
                                    "suggested_specialty"; "explanation"]
                              /\ dict_lookup k d = None) ->
         exists msg,
           get_ai_triage_analysis w patient_text language
           = IsStr (heading ++ msg)).
Proof.
  intros heading. unfold get_ai_triage_analysis, chain_invoke. repeat split.
  - intros e He. rewrite He. reflexivity.
  - intros out e Hout He. rewrite Hout. simpl. rewrite He. reflexivity.
  - intros out obj Hout Hobj Hmiss. rewrite Hout. cbn [bind]. rewrite Hobj.
    cbn [bind].
    destruct (validate_TriageResponse obj) as [r|e] eqn:V;
      [|exists (exn_msg e); reflexivity].
    exfalso. apply validate_encodes in V.
    destruct V as (d & -> & Hu & Hpc & Hsp & _ & _ & Hex).
    destruct (Hmiss d eq_refl) as (k & Hk & Hnone).
    simpl in Hk. destruct Hk as [<-|[<-|[<-|[<-|[]]]]]; congruence.
Qed.

Variables latitude longitude : pyval.

(** X3.  A candidate must be an object, and its record copies the candidate's
    ['name'], ['vicinity'] and ['rating'] entries as they are, whatever
    their JSON type, each replaced by 'N/A' when absent. *)
Theorem record_copies_the_candidate (place : pyval) :
  (forall r, place_entry w latitude longitude place = Return r ->
             exists d, place = PDict d
                       /\ Name r = get_or d "name" (PStr "N/A")
                       /\ Address r = get_or d "vicinity" (PStr "N/A")
                       /\ Rating r = get_or d "rating" (PStr "N/A"))
  /\ ((forall d, place <> PDict d) ->
      place_entry w latitude longitude place
      = Raise (Exn AttributeError
                   ("'" ++ type_name place ++ "' object has no attribute 'get'"))).
Proof.
  split.
  - intros r H. destruct place; try discriminate.
    exists d. split; [reflexivity|].
    unfold place_entry in H. invert_binds. simpl.
    repeat match goal with
           | E : py_get (PDict d) _ _ = Return _ |- _ =>
               simpl in E; inversion E; subst; clear E
           end.
    unfold get_or. auto.
  - intros Hnot. destruct place; try reflexivity.
    exfalso. apply (Hnot d). reflexivity.
Qed.

Variable query : string.
Variable radius_m : Z.

Let found := find_nearby_places_google w latitude longitude query radius_m.

(** X4.  One candidate that cannot be processed fails the whole call: the
    records of the candidates before it are dropped, and the call returns
    the text of that candidate's exception under the heading of the
    second handler. *)
Theorem one_bad_candidate_fails_the_call
        (pre post : list pyval) (p : pyval) (e : exn) :
  key_missing (GOOGLE_MAPS_API_KEY w) = false ->
  upstream_results w latitude longitude query radius_m
                   (PList (pre ++ p :: post)) ->
  (forall q, In q pre -> exists r, place_entry w latitude longitude q = Return r) ->
  place_entry w latitude longitude p = Raise e ->
  found = Return (IsText ("An error occurred while parsing Google Maps data: "
                            ++ exn_msg e)).
Proof.
  intros Hkey Hup Hpre Hp.
  unfold found, find_nearby_places_google. rewrite Hkey.
  rewrite (try_body_results _ _ _ _ _ _ Hup).
  assert (T : truthy (PList (pre ++ p :: post)) = true)
    by (destruct pre; reflexivity).
  rewrite T. cbn [py_iter bind].
  rewrite (for_places_stops w latitude longitude pre post p e Hpre Hp []).
  simpl. rewrite (place_entry_local _ _ _ _ _ Hp). reflexivity.
Qed.

(** X5.  In the frame returned for a non-empty list of candidates, the
    distance column holds the distances of the candidates' records, one
    row per candidate, rearranged in non-decreasing order (a distance that
    is not a number comes last); so no record is nearer than the first
    row.  This holds for whatever indexer pandas computes, as long as it
    is a sorting indexer for the distance column; it speaks of the
    distance column only. *)
Theorem nearest_place_first (items : list pyval) (places : list place_row) :
  key_missing (GOOGLE_MAPS_API_KEY w) = false ->
  upstream_results w latitude longitude query radius_m (PList items) ->
  items <> [] ->
  for_places w latitude longitude items [] = Return places ->
  sorting_indexer (map Distance_km places) (argsort w (map Distance_km places))
  = true ->
  exists df nearest rest,
    found = Return (IsFrame df)
    /\ List.length (rows df) = List.length items
    /\ Permutation (map Distance_km (rows df)) (map Distance_km places)
    /\ Sorted (fun x y => na_last_le x y = true) (map Distance_km (rows df))
    /\ map Distance_km (rows df) = nearest :: rest
    /\ (forall r, In r places -> na_last_le nearest (Distance_km r) = true)
    /\ (Forall (fun r => is_nan (Distance_km r) = false) places ->
        Sorted (fun x y => SFleb x y = true) (map Distance_km (rows df))).
Proof.
  intros Hkey Hup Hne Hloop Hsort.
  destruct (sorted_frame w places Hsort) as [Hperm Hsorted].
  pose proof (Permutation_map Distance_km Hperm) as Hkeys.
  pose proof (Sorted_map Distance_km (fun x y => na_last_le x y = true) _ Hsorted)
    as Hcol.
  assert (Hplaces : places <> []).
  { apply for_places_length in Hloop. destruct places; [|discriminate].
    destruct items; [congruence | discriminate]. }
  destruct (map Distance_km (rows (sort_values w (frame_of places))))
    as [|nearest rest] eqn:R.
  { apply Permutation_nil in Hkeys. destruct places; [congruence | discriminate]. }
  exists (sort_values w (frame_of places)), nearest, rest.
  rewrite R.
  split; [|split; [|split; [exact Hkeys | split; [exact Hcol | split;
                                                  [reflexivity | split]]]]].
  - unfold found. rewrite (find_frame _ _ _ _ _ _ places Hkey Hup Hloop).
    destruct places; [congruence | reflexivity].
  - rewrite (Permutation_length Hperm). apply (for_places_length _ _ _ _ _ Hloop).
  - intros r Hr.
    assert (Hin : In (Distance_km r) (nearest :: rest)).
    { apply (Permutation_in _ (Permutation_sym Hkeys)). apply in_map. exact Hr. }
    destruct Hin as [<-|Hin]; [apply na_last_le_refl|].
    assert (Hall : Forall (fun y => na_last_le nearest y = true) rest).
    { apply (Sorted_head_least (fun x y => na_last_le x y = true)).
      - intros a b c. apply na_last_le_trans.
      - exact Hcol. }
    rewrite Forall_forall in Hall. apply Hall. exact Hin.
  - intros Hnum.
    apply (Sorted_weaken (fun x => is_nan x = false)
                         (fun x y => na_last_le x y = true)).
    + intros x y Hx Hy. apply na_last_le_numbers; assumption.
    + apply Forall_forall. intros x Hx.
      apply (Permutation_in _ Hkeys) in Hx. apply in_map_iff in Hx.
      destruct Hx as (r & <- & Hr). rewrite Forall_forall in Hnum.
      apply Hnum. exact Hr.
    + exact Hcol.
Qed.

(** X6.  With an indexer that sorts every column, a returned frame is empty
    exactly when the API reported no candidate; so the caller's test
    [df.empty] means "no results" and nothing else. *)
Theorem frame_empty_iff_no_candidates (results : pyval) (df : DataFrame) :
  (forall keys, sorting_indexer keys (argsort w keys) = true) ->
  key_missing (GOOGLE_MAPS_API_KEY w) = false ->
  upstream_results w latitude longitude query radius_m results ->
  found = Return (IsFrame df) ->
  (frame_empty df = true <-> truthy results = false).
Proof.
  intros Hsort Hkey Hup Hfound.
  unfold found, find_nearby_places_google in Hfound. rewrite Hkey in Hfound.
  rewrite (try_body_results _ _ _ _ _ _ Hup) in Hfound.
  destruct (truthy results) eqn:T.
  - split; [|discriminate]. intros Hempty. exfalso.
    destruct (py_iter results) as [items|e] eqn:I;
      [|simpl in Hfound; destruct (is_RequestException e); discriminate].
    cbn [bind] in Hfound.
    destruct (for_places w latitude longitude items []) as [places|e] eqn:L;
      [|simpl in Hfound; destruct (is_RequestException e); discriminate].
    pose proof (py_iter_truthy _ _ T I) as Hitems.
    pose proof (for_places_length _ _ _ _ _ L) as Hlen.
    destruct places as [|r places];
      [destruct items; [congruence | discriminate]|].
    simpl in Hfound. inversion Hfound; subst. clear Hfound.
    destruct (sorted_frame w (r :: places) (Hsort _)) as [Hperm _].
    unfold frame_empty in Hempty.
    destruct (rows (sort_values w (frame_of (r :: places)))) eqn:R;
      [|discriminate].
    apply Permutation_nil in Hperm. discriminate.
  - simpl in Hfound. inversion Hfound; subst. split; reflexivity.
Qed.

End MainProperties.

(* ================================================================== *)
(** * Further properties of [app.py] *)
(* ================================================================== *)

Module AppFacts.

Import Main App Spec Facts.

Section Keeps.

Variable J : option TriageResponse -> option (pyval * pyval) -> Prop.

Lemma keeps_ret {A : Type} (a : A) : session_keeps J (ret a).
Proof. intros s H; exact H. Qed.

Lemma keeps_stop {A : Type} : session_keeps J (@stop A).
Proof. intros s H; exact H. Qed.

Lemma keeps_call {A : Type} (r : result A) : session_keeps J (call r).
Proof. intros s H; unfold call; destruct r; exact H. Qed.

Lemma keeps_emit (ev : event) : session_keeps J (emit ev).
Proof. intros s H; exact H. Qed.

Lemma keeps_get_analysis_result : session_keeps J get_analysis_result.
Proof. intros s H; exact H. Qed.

Lemma keeps_get_user_location : session_keeps J get_user_location.
Proof. intros s H; exact H. Qed.

Lemma keeps_set_user_location (l : option (pyval * pyval)) :
  (forall a l0, J a l0 -> J a l) -> session_keeps J (set_user_location l).
Proof. intros HJ s H. simpl. apply (HJ _ _ H). Qed.

Lemma keeps_set_analysis_result (a : option TriageResponse) :
  (forall a0 l, J a0 l -> J a l) -> session_keeps J (set_analysis_result a).
Proof. intros HJ s H. simpl. apply (HJ _ _ H). Qed.

Lemma keeps_and_then {A B : Type} (m : script A) (k : A -> script B) :
  session_keeps J m -> (forall a, session_keeps J (k a)) ->
  session_keeps J (and_then m k).
Proof.
  intros Hm Hk s H. unfold and_then. specialize (Hm s H).
  destruct (m s) as [[a| |e] s']; simpl in *; [|exact Hm|exact Hm].
  apply Hk. exact Hm.
Qed.

End Keeps.

Ltac keeps_step :=
  first
    [ apply keeps_ret
    | apply keeps_stop
    | apply keeps_call
    | apply keeps_emit
    | apply keeps_get_analysis_result
    | apply keeps_get_user_location
    | apply keeps_and_then; [|intros]
    | match goal with
      | |- session_keeps _ (match ?x with _ => _ end) => destruct x
      | |- session_keeps _ (if ?b then _ else _) => destruct b
      end ].

(** ** What each part of the script may change *)

Lemma load_models_keeps (J : option TriageResponse -> option (pyval * pyval) -> Prop)
      (w : world) :
  session_keeps J (load_models w).
Proof. unfold load_models. repeat keeps_step. Qed.

Lemma show_places_keeps
      (J : option TriageResponse -> option (pyval * pyval) -> Prop)
      (w : world) (pg : page) (lat lon : pyval) (query not_found : string) :
  session_keeps J (show_places w pg lat lon query not_found).
Proof. unfold show_places. repeat keeps_step. Qed.

Lemma report_keeps (J : option TriageResponse -> option (pyval * pyval) -> Prop)
      (w : world) (pg : page) :
  session_keeps J (report w pg).
Proof.
  unfold report. repeat first [ apply show_places_keeps | keeps_step ].
Qed.

(** The sidebar only ever stores a location. *)
Lemma sidebar_keeps (J : option TriageResponse -> option (pyval * pyval) -> Prop)
      (pg : page) :
  (forall a l0 loc, J a l0 -> J a (Some loc)) ->
  session_keeps J (sidebar pg).
Proof.
  intros HJ. unfold sidebar, browser_location, city_location.
  repeat first [ apply keeps_set_user_location;
                 intros ? ? Hj; eapply HJ; exact Hj
               | keeps_step ].
Qed.

(** The request stores a result or clears it, and leaves the location. *)
Lemma analyze_symptoms_keeps
      (J : option TriageResponse -> option (pyval * pyval) -> Prop)
      (w : world) (pg : page) (recording : string) :
  (forall a0 l a, J a0 l -> J a l) ->
  session_keeps J (analyze_symptoms w pg recording).
Proof.
  intros HJ. unfold analyze_symptoms.
  repeat first [ apply keeps_set_analysis_result;
                 intros ? ? Hj; eapply HJ; exact Hj
               | keeps_step ].
Qed.

Lemma main_flow_has_location (w : world) (pg : page) :
  session_keeps has_location (main_flow w pg).
Proof.
  unfold main_flow.
  repeat first [ apply analyze_symptoms_keeps; unfold has_location; auto
               | keeps_step ].
Qed.

Lemma main_flow_located (w : world) (pg : page) :
  session_keeps located (main_flow w pg).
Proof.
  intros s H. unfold main_flow, and_then, get_user_location. simpl.
  destruct (user_location s) as [loc|] eqn:L; simpl.
  - destruct (uploaded_file pg) as [recording|]; [|simpl; rewrite L; exact H].
    destruct (analyze_clicked pg); simpl; [|rewrite L; exact H].
    (* whatever the request does, the location stays *)
    intros _. apply (analyze_symptoms_keeps has_location w pg recording).
    + unfold has_location. auto.
    + unfold has_location. rewrite L. discriminate.
  - rewrite andb_false_r.
    destruct (uploaded_file pg); simpl; rewrite L; exact H.
Qed.

Lemma app_located (w : world) (pg : page) : session_keeps located (app w pg).
Proof.
  unfold app.
  apply keeps_and_then; [apply load_models_keeps|]. intros _.
  apply keeps_and_then.
  { apply sidebar_keeps. unfold located. intros a l0 loc _ _. discriminate. }
  intros _.
  apply keeps_and_then; [apply main_flow_located|]. intros _.
  apply keeps_and_then; [apply report_keeps|]. intros _.
  apply keeps_emit.
Qed.

Lemma app_has_location (w : world) (pg : page) :
  session_keeps has_location (app w pg).
Proof.
  unfold app.
  apply keeps_and_then; [apply load_models_keeps|]. intros _.
  apply keeps_and_then.
  { apply sidebar_keeps. unfold has_location. intros. discriminate. }
  intros _.
  apply keeps_and_then; [apply main_flow_has_location|]. intros _.
  apply keeps_and_then; [apply report_keeps|]. intros _.
  apply keeps_emit.
Qed.

Lemma run_located (w : world) (pg : page) (a : option TriageResponse)
      (l : option (pyval * pyval)) :
  located a l ->
  located (analysis_result (snd (run w pg a l)))
          (user_location (snd (run w pg a l))).
Proof. intros H. unfold run. apply app_located. exact H. Qed.

Lemma run_has_location (w : world) (pg : page) (a : option TriageResponse)
      (l : option (pyval * pyval)) :
  l <> None -> user_location (snd (run w pg a l)) <> None.
Proof. intros H. unfold run. apply (app_has_location w pg). exact H. Qed.

Lemma sidebar_idle (pg : page) (s : state) :
  no_browser_location pg ->
  find_location_clicked pg = false ->
  sidebar pg s = (Next tt, s).
Proof.
  intros Hd Hc. unfold sidebar, browser_location, city_location, and_then.
  rewrite Hc. destruct Hd as [Hd|Hd].
  - rewrite Hd. reflexivity.
  - rewrite Hd. destruct (truthy (location_data pg)); reflexivity.
Qed.

(** ** The request, step by step *)

Lemma main_flow_request (w : world) (pg : page) (recording : string)
      (loc : pyval * pyval) (s : state) :
  user_location s = Some loc ->
  uploaded_file pg = Some recording ->
  analyze_clicked pg = true ->
  main_flow w pg s = analyze_symptoms w pg recording s.
Proof.
  intros Hl Hu Hc. unfold main_flow, and_then, get_user_location.
  rewrite Hl, Hu, Hc. reflexivity.
Qed.

Lemma request_succeeds (w : world) (pg : page) (recording text : string)
      (r : TriageResponse) (s : state) :
  transcribe_audio w (tmp_name pg recording) (language_map (selected_language pg))
  = Return text ->
  contains "Error:" text = false ->
  get_ai_triage_analysis w text (language_name (selected_language pg))
  = IsTriage r ->
  analyze_symptoms w pg recording s
  = (Next tt,
     {| analysis_result := Some r;
        user_location := user_location s;
        log := log s ++ [StatusUpdate Transcribing;
                         Call_transcribe_audio
                           (tmp_name pg recording)
                           (language_map (selected_language pg));
                         StatusUpdate AnalyzingSymptoms;
                         Call_get_ai_triage_analysis
                           text (language_name (selected_language pg));
                         StatusUpdate AnalysisComplete] |}).
Proof.
  intros Ht Hc Ha. unfold analyze_symptoms, and_then, emit, call,
                     set_analysis_result. simpl.
  rewrite Ht. simpl. rewrite Hc. simpl. rewrite Ha. simpl.
  repeat rewrite <- app_assoc. reflexivity.
Qed.

Lemma request_fails (w : world) (pg : page) (recording text msg : string)
      (s : state) :
  transcribe_audio w (tmp_name pg recording) (language_map (selected_language pg))
  = Return text ->
  contains "Error:" text = false ->
  get_ai_triage_analysis w text (language_name (selected_language pg))
  = IsStr msg ->
  analyze_symptoms w pg recording s
  = (Next tt,
     {| analysis_result := None;
        user_location := user_location s;
        log := log s ++ [StatusUpdate Transcribing;
                         Call_transcribe_audio
                           (tmp_name pg recording)
                           (language_map (selected_language pg));
                         StatusUpdate AnalyzingSymptoms;
                         Call_get_ai_triage_analysis
                           text (language_name (selected_language pg));
                         StatusUpdate AnalysisFailed;
                         StError msg] |}).
Proof.
  intros Ht Hc Ha. unfold analyze_symptoms, and_then, emit, call,
                     set_analysis_result. simpl.
  rewrite Ht. simpl. rewrite Hc. simpl. rewrite Ha. simpl.
  repeat rewrite <- app_assoc. reflexivity.
Qed.

Lemma request_crashes (w : world) (pg : page) (recording : string) (e : exn)
      (s : state) :
  transcribe_audio w (tmp_name pg recording) (language_map (selected_language pg))
  = Raise e ->
  analyze_symptoms w pg recording s
  = (Crash e,
     {| analysis_result := None;
        user_location := user_location s;
        log := log s ++ [StatusUpdate Transcribing;
                         Call_transcribe_audio
                           (tmp_name pg recording)
                           (language_map (selected_language pg))] |}).
Proof.
  intros Ht. unfold analyze_symptoms, and_then, emit, call,
               set_analysis_result. simpl.
  rewrite Ht. simpl. repeat rewrite <- app_assoc. reflexivity.
Qed.

(** ** The lookups of the report *)

Lemma lookups_app (l1 l2 : list event) :
  lookups (l1 ++ l2) = lookups l1 ++ lookups l2.
Proof. unfold lookups. apply flat_map_app. Qed.

Lemma find_returns (w : world) (lat lon : pyval) (q : string) (radius_m : Z) :
  key_missing (GOOGLE_MAPS_API_KEY w) = false ->
  exists out, find_nearby_places_google w lat lon q radius_m = Return out.
Proof.
  intros Hkey. unfold find_nearby_places_google. rewrite Hkey.
  destruct (try_body w lat lon q radius_m) as [df|e].
  - eexists; reflexivity.
  - destruct (is_RequestException e); eexists; reflexivity.
Qed.

Lemma show_places_outcome (w : world) (pg : page) (lat lon : pyval)
      (q nf : string) (s : state) :
  key_missing (GOOGLE_MAPS_API_KEY w) = false ->
  renders w pg lat lon q ->
  exists ev,
    show_places w pg lat lon q nf s
    = (Next tt,
       {| analysis_result := analysis_result s;
          user_location := user_location s;
          log := log s ++ [Call_find_nearby_places_google lat lon q; ev] |})
    /\ (ev = StWarning nf \/ exists df, ev = StTable df).
Proof.
  intros Hkey Htable.
  destruct (find_returns w lat lon q default_radius Hkey) as [out F].
  unfold show_places, and_then, emit, call. simpl. rewrite F.
  destruct out as [df|text]; simpl.
  - destruct (frame_empty df) eqn:E; simpl.
    + exists (StWarning nf). rewrite <- app_assoc. auto.
    + rewrite (Htable df F E). simpl. exists (StTable df). rewrite <- app_assoc.
      split; [reflexivity | right; exists df; reflexivity].
  - exists (StWarning nf). rewrite <- app_assoc. auto.
Qed.

Lemma show_places_step (w : world) (pg : page) (lat lon : pyval)
      (q nf : string) (s : state) :
  key_missing (GOOGLE_MAPS_API_KEY w) = false ->
  renders w pg lat lon q ->
  exists s',
    show_places w pg lat lon q nf s = (Next tt, s')
    /\ analysis_result s' = analysis_result s
    /\ user_location s' = user_location s
    /\ lookups (log s') = lookups (log s) ++ [q].
Proof.
  intros Hkey Htable.
  destruct (show_places_outcome w pg lat lon q nf s Hkey Htable)
    as (ev & Hs & Hev).
  eexists. split; [exact Hs|]. simpl. repeat split.
  rewrite lookups_app. f_equal.
  destruct Hev as [->|[df ->]]; reflexivity.
Qed.

(** A table that does not render ends the run where it stands. *)
Lemma show_places_crash (w : world) (pg : page) (lat lon : pyval)
      (q nf : string) (s : state) (df : DataFrame) (e : exn) :
  find_nearby_places_google w lat lon q default_radius = Return (IsFrame df) ->
  frame_empty df = false ->
  st_table pg df = Raise e ->
  show_places w pg lat lon q nf s
  = (Crash e,
     {| analysis_result := analysis_result s;
        user_location := user_location s;
        log := log s ++ [Call_find_nearby_places_google lat lon q] |}).
Proof.
  intros F E T. unfold show_places, and_then, emit, call. simpl.
  rewrite F. simpl. rewrite E. simpl. rewrite T. reflexivity.
Qed.

Lemma report_outcome (w : world) (pg : page) (s : state) (r : TriageResponse)
      (lat lon : pyval) :
  key_missing (GOOGLE_MAPS_API_KEY w) = false ->
  (String.eqb (urgency r) "Emergency" = true ->
   renders w pg lat lon "hospital emergency") ->
  renders w pg lat lon (suggested_specialty r) ->
  analysis_result s = Some r ->
  user_location s = Some (lat, lon) ->
  exists s',
    report w pg s = (Next tt, s')
    /\ analysis_result s' = Some r
    /\ user_location s' = Some (lat, lon)
    /\ lookups (log s')
       = lookups (log s)
           ++ (if String.eqb (urgency r) "Emergency"
               then ["hospital emergency"] else [])
           ++ [suggested_specialty r].
Proof.
  intros Hkey Hurgent Htable Hr Hl.
  unfold report, and_then at 1, get_analysis_result. rewrite Hr.
  unfold and_then at 1, get_user_location. rewrite Hl.
  (* the optional emergency lookup *)
  assert (E : exists s1,
             (if String.eqb (urgency r) "Emergency"
              then emit (StError emergency_banner) ;;;
                   show_places w pg lat lon "hospital emergency"
                               "Could not find nearby emergency services."
              else ret tt) s = (Next tt, s1)
             /\ analysis_result s1 = Some r
             /\ user_location s1 = Some (lat, lon)
             /\ lookups (log s1)
                = lookups (log s)
                    ++ (if String.eqb (urgency r) "Emergency"
                        then ["hospital emergency"] else [])).
  { destruct (String.eqb (urgency r) "Emergency").
    - unfold and_then, emit.
      destruct (show_places_step
                  w pg lat lon "hospital emergency"
                  "Could not find nearby emergency services."
                  {| analysis_result := analysis_result s;
                     user_location := user_location s;
                     log := log s ++ [StError emergency_banner] |}
                  Hkey (Hurgent eq_refl)) as (s1 & H1 & A1 & L1 & Q1).
      exists s1. rewrite H1. simpl in *. rewrite A1, L1, Q1, lookups_app.
      simpl. rewrite app_nil_r. auto.
    - exists s. rewrite app_nil_r. auto. }
  destruct E as (s1 & H1 & A1 & L1 & Q1).
  unfold and_then at 1. rewrite H1.
  (* the two notices of the second tab change neither session nor lookups *)
  assert (N : exists s2,
             ((if is_nonempty (self_care_tips r) then ret tt
               else emit (StWarning
                            "No self-care is advised. Please consult a doctor."))
                ;;; ((if is_nonempty (recommended_tests r) then ret tt
                      else emit (StInfo "The AI did not suggest specific tests."))
                       ;;; ret tt)) s1 = (Next tt, s2)
             /\ analysis_result s2 = analysis_result s1
             /\ user_location s2 = user_location s1
             /\ lookups (log s2) = lookups (log s1)).
  { unfold and_then, emit, ret.
    destruct (is_nonempty (self_care_tips r)),
             (is_nonempty (recommended_tests r)); simpl;
      eexists; (split; [reflexivity|]); simpl;
      repeat rewrite lookups_app; simpl; repeat rewrite app_nil_r; auto. }
  destruct N as (s2 & H2 & A2 & L2 & Q2).
  unfold and_then in H2 |- *.
  destruct (show_places_step w pg lat lon (suggested_specialty r)
                             (no_doctors (suggested_specialty r)) s2 Hkey Htable)
    as (s3 & H3 & A3 & L3 & Q3).
  exists s3.
  destruct ((if is_nonempty (self_care_tips r) then ret tt
             else emit (StWarning
                          "No self-care is advised. Please consult a doctor."))
              s1) as [[[]| |e] s1'] eqn:N1; try discriminate.
  destruct ((if is_nonempty (recommended_tests r) then ret tt
             else emit (StInfo "The AI did not suggest specific tests."))
              s1') as [[[]| |e] s1''] eqn:N2; try discriminate.
  inversion H2; subst s1''. rewrite H3.
  rewrite A3, L3, Q3, A2, L2, Q2, A1, L1, Q1, <- app_assoc. auto.
Qed.

(** The emergency table does not render: the report stops there. *)
Lemma report_crash (w : world) (pg : page) (s : state) (r : TriageResponse)
      (lat lon : pyval) (df : DataFrame) (e : exn) :
  analysis_result s = Some r ->
  user_location s = Some (lat, lon) ->
  String.eqb (urgency r) "Emergency" = true ->
  find_nearby_places_google w lat lon "hospital emergency" default_radius
  = Return (IsFrame df) ->
  frame_empty df = false ->
  st_table pg df = Raise e ->
  report w pg s
  = (Crash e,
     {| analysis_result := Some r;
        user_location := Some (lat, lon);
        log := log s ++ [StError emergency_banner;
                         Call_find_nearby_places_google lat lon
                                                        "hospital emergency"] |}).
Proof.
  intros Hr Hl Hu F E T.
  unfold report, and_then at 1, get_analysis_result. rewrite Hr.
  unfold and_then at 1, get_user_location. rewrite Hl.
  unfold and_then at 1. rewrite Hu.
  unfold and_then at 1, emit at 1.
  rewrite (show_places_crash w pg lat lon "hospital emergency" _ _ df e F E T).
  simpl. rewrite Hr, Hl, <- app_assoc. reflexivity.
Qed.

End AppFacts.

Section AppProperties.

Import Main App Spec Facts Runs AppFacts.

(** X7.  The test of line 88, ["Error:" in transcribed_text], and any
    test [sub in s], holds exactly when [s] is some text, then [sub], then
    some text. *)
Theorem error_test_is_a_substring_test (sub s : string) :
  contains sub s = true
  <-> exists pre post, s = (pre ++ sub ++ post)%string.
Proof.
  induction s as [|c s IH].
  - cbn [contains]. destruct (String.prefix sub "") eqn:P.
    + split; [intros _|reflexivity]. apply MainFacts.prefix_split in P.
      destruct P as [post P]. exists "", post. exact P.
    + split; [discriminate|]. intros (pre & post & H).
      destruct pre; [|discriminate]. simpl in H.
      rewrite (proj2 (MainFacts.prefix_split sub "")) in P; [discriminate|].
      exists post. exact H.
  - cbn [contains]. destruct (String.prefix sub (String c s)) eqn:P.
    + split; [intros _|reflexivity]. apply MainFacts.prefix_split in P.
      destruct P as [post P]. exists "", post. exact P.
    + rewrite IH. split.
      * intros (pre & post & H). exists (String c pre), post. simpl. congruence.
      * intros (pre & post & H). destruct pre as [|c' pre].
        -- simpl in H. rewrite (proj2 (MainFacts.prefix_split sub (String c s))) in P;
             [discriminate|]. exists post. exact H.
        -- simpl in H. inversion H; subst. exists pre, post. reflexivity.
Qed.

(** X8.  Over any sequence of runs, each with its own world and widgets, the
    session keeps a result only together with a location, and a location
    once stored is never lost; so the report's unpacking of the location
    (line 104) always finds a pair. *)
Theorem result_is_stored_with_a_location
        (visits : list (world * page)) (analysis : option TriageResponse)
        (location : option (pyval * pyval)) :
  located analysis location ->
  located (fst (reruns visits analysis location))
          (snd (reruns visits analysis location))
  /\ (location <> None -> snd (reruns visits analysis location) <> None).
Proof.
  revert analysis location.
  induction visits as [|[w pg] visits IH]; intros analysis location H; simpl.
  - split; [exact H | auto].
  - destruct (IH _ _ (run_located w pg analysis location H)) as [I1 I2].
    split; [exact I1|]. intros Hl. apply I2.
    apply run_has_location. exact Hl.
Qed.

Variable w : world.
Variable pg : page.

(** X9.  A run in which no analysis is requested (no recording, or the button
    not pressed) leaves the stored result as it was: the report is shown
    again from the session. *)
Theorem rerun_without_request_keeps_result
        (analysis : option TriageResponse) (location : option (pyval * pyval)) :
  uploaded_file pg = None \/ analyze_clicked pg = false ->
  analysis_result (snd (run w pg analysis location)) = analysis.
Proof.
  intros Hidle. unfold run.
  assert (K : session_keeps (fun a _ => a = analysis) (app w pg)).
  { unfold app.
    apply keeps_and_then; [apply load_models_keeps|]. intros _.
    apply keeps_and_then; [apply sidebar_keeps; auto|]. intros _.
    apply keeps_and_then.
    { unfold main_flow.
      apply keeps_and_then; [apply keeps_get_user_location|]. intros loc.
      apply keeps_and_then; [repeat keeps_step|]. intros _.
      destruct Hidle as [-> | ->]; [apply keeps_ret|].
      destruct (uploaded_file pg); apply keeps_ret. }
    intros _.
    apply keeps_and_then; [apply report_keeps|]. intros _.
    apply keeps_emit. }
  apply (K {| analysis_result := analysis; user_location := location;
              log := [] |}). reflexivity.
Qed.

(** X10.  Only the sidebar stores a location: when the browser gives none
    (its component returned nothing, or a dict without a latitude) and the
    city button is not pressed, the run leaves the location as it was,
    whatever the request and the report do. *)
Theorem location_changes_only_in_sidebar
        (analysis : option TriageResponse) (location : option (pyval * pyval)) :
  no_browser_location pg ->
  find_location_clicked pg = false ->
  user_location (snd (run w pg analysis location)) = location.
Proof.
  intros Hd Hc. unfold run.
  assert (K : session_keeps (fun _ l => l = location) (app w pg)).
  { unfold app.
    apply keeps_and_then; [apply load_models_keeps|]. intros _.
    apply keeps_and_then.
    { intros s Hs. rewrite (sidebar_idle pg s Hd Hc). exact Hs. }
    intros _.
    apply keeps_and_then.
    { unfold main_flow.
      repeat first [ apply analyze_symptoms_keeps; auto | keeps_step ]. }
    intros _.
    apply keeps_and_then; [apply report_keeps|]. intros _.
    apply keeps_emit. }
  apply (K {| analysis_result := analysis; user_location := location;
              log := [] |}). reflexivity.
Qed.

(** X11.  Without a location nothing is analysed: from a fresh session, when
    the browser gives no location (its component returned nothing, or a
    dict without a latitude) and the city button is not pressed, the run
    shows the two warnings and makes no call, even with a recording
    uploaded and the button pressed. *)
Theorem no_location_no_analysis :
  key_missing (GOOGLE_API_KEY w) = false ->
  no_browser_location pg ->
  find_location_clicked pg = false ->
  run w pg None None
  = (Next tt,
     {| analysis_result := None;
        user_location := None;
        log := [StWarning
                  "Please set your location in the sidebar to enable analysis.";
                StWarning disclaimer] |}).
Proof.
  intros Hkey Hd Hc.
  unfold run, app. unfold and_then at 1.
  unfold load_models, load_ai_model. rewrite Hkey.
  cbv beta iota. unfold ret at 1. cbv beta iota. unfold and_then at 1.
  rewrite (sidebar_idle pg _ Hd Hc).
  unfold and_then, main_flow, get_user_location, emit, report,
    get_analysis_result, ret. simpl.
  destruct (uploaded_file pg); [destruct (analyze_clicked pg)|]; reflexivity.
Qed.

(** X12.  The city lookup never ends the run and never touches the
    stored result; when the button is pressed and the geocoder raises or
    finds nothing, the location is left as it was and one error message
    is shown. *)
Theorem city_lookup_never_ends_the_run (s : state) :
  (exists s', city_location pg s = (Next tt, s')
              /\ analysis_result s' = analysis_result s)
  /\ (find_location_clicked pg = true ->
      (forall lat lon, geocode pg (manual_city pg) <> Return (Some (lat, lon))) ->
      exists msg,
        city_location pg s
        = (Next tt, {| analysis_result := analysis_result s;
                       user_location := user_location s;
                       log := log s ++ [StError msg] |})).
Proof.
  split.
  - unfold city_location, and_then, set_user_location, emit, ret.
    destruct (find_location_clicked pg); [|eexists; split; reflexivity].
    destruct (geocode pg (manual_city pg)) as [[[lat lon]|]|e];
      try (eexists; split; reflexivity).
    destruct (format_4f pg lat) as [a|e]; simpl;
      [|eexists; split; reflexivity].
    destruct (format_4f pg lon) as [b|e]; simpl; eexists; split; reflexivity.
  - intros Hc Hfail. unfold city_location. rewrite Hc.
    destruct (geocode pg (manual_city pg)) as [[[lat lon]|]|e] eqn:G.
    + exfalso. apply (Hfail lat lon). reflexivity.
    + eexists. reflexivity.
    + eexists. reflexivity.
Qed.

(** X13.  A lookup that fails, or finds no candidate, is shown as the "could
    not find" warning and the run goes on: the text of the failure is not
    shown. *)
Theorem failed_lookup_shows_no_results
        (lat lon : pyval) (query not_found : string) (s : state) :
  key_missing (GOOGLE_MAPS_API_KEY w) = false ->
  (exists e, try_body w lat lon query default_radius = Raise e)
  \/ (exists results,
         upstream_results w lat lon query default_radius results
         /\ truthy results = false) ->
  show_places w pg lat lon query not_found s
  = (Next tt,
     {| analysis_result := analysis_result s;
        user_location := user_location s;
        log := log s ++ [Call_find_nearby_places_google lat lon query;
                         StWarning not_found] |}).
Proof.
  intros Hkey Hcase.
  unfold show_places, and_then, emit, call, find_nearby_places_google.
  simpl. rewrite Hkey.
  destruct Hcase as [[e He] | (results & Hup & Hfalse)].
  - rewrite He. destruct (is_RequestException e); simpl;
      rewrite <- app_assoc; reflexivity.
  - rewrite (try_body_results _ _ _ _ _ _ Hup), Hfalse. simpl.
    rewrite <- app_assoc. reflexivity.
Qed.

(** X14.  The report of a stored result looks up the suggested specialty,
    and before it "hospital emergency" exactly when the urgency is the
    text "Emergency".  When the tables of these lookups render, the report
    ends normally and leaves the session as it was.  When the emergency
    table does not render, the run ends there with the exception of the
    rendering: the specialty is never looked up. *)
Theorem report_lookups (s : state) (r : TriageResponse) (lat lon : pyval) :
  key_missing (GOOGLE_MAPS_API_KEY w) = false ->
  analysis_result s = Some r ->
  user_location s = Some (lat, lon) ->
  ((String.eqb (urgency r) "Emergency" = true ->
    renders w pg lat lon "hospital emergency") ->
   renders w pg lat lon (suggested_specialty r) ->
   exists s',
     report w pg s = (Next tt, s')
     /\ analysis_result s' = Some r
     /\ user_location s' = Some (lat, lon)
     /\ lookups (log s')
        = lookups (log s)
            ++ (if String.eqb (urgency r) "Emergency"
                then ["hospital emergency"] else [])
            ++ [suggested_specialty r])
  /\ (forall df e,
        String.eqb (urgency r) "Emergency" = true ->
        find_nearby_places_google w lat lon "hospital emergency" default_radius
        = Return (IsFrame df) ->
        frame_empty df = false ->
        st_table pg df = Raise e ->
        exists s',
          report w pg s = (Crash e, s')
          /\ analysis_result s' = Some r
          /\ user_location s' = Some (lat, lon)
          /\ lookups (log s') = lookups (log s) ++ ["hospital emergency"]).
Proof.
  intros Hkey Hr Hl. split.
  - intros Hurgent Htable. apply report_outcome; assumption.
  - intros df e Hu F E T.
    rewrite (report_crash w pg s r lat lon df e Hr Hl Hu F E T).
    eexists. split; [reflexivity|]. simpl. repeat split.
    rewrite lookups_app. reflexivity.
Qed.

(** X15.  A request whose analysis fails clears the stored result, shows the
    returned text as the error, and is followed by no report: no place is
    looked up in that run. *)
Theorem failed_analysis_clears_result
        (recording text msg : string) (loc : pyval * pyval) (s : state) :
  user_location s = Some loc ->
  uploaded_file pg = Some recording ->
  analyze_clicked pg = true ->
  transcribe_audio w (tmp_name pg recording) (language_map (selected_language pg))
  = Return text ->
  contains "Error:" text = false ->
  get_ai_triage_analysis w text (language_name (selected_language pg))
  = IsStr msg ->
  (main_flow w pg ;;; report w pg) s
  = (Next tt,
     {| analysis_result := None;
        user_location := Some loc;
        log := log s ++ [StatusUpdate Transcribing;
                         Call_transcribe_audio
                           (tmp_name pg recording)
                           (language_map (selected_language pg));
                         StatusUpdate AnalyzingSymptoms;
                         Call_get_ai_triage_analysis
                           text (language_name (selected_language pg));
                         StatusUpdate AnalysisFailed;
                         StError msg] |}).
Proof.
  intros Hl Hu Hc Ht Hn Ha. unfold and_then.
  rewrite (main_flow_request w pg recording loc s Hl Hu Hc).
  rewrite (request_fails w pg recording text msg s Ht Hn Ha).
  rewrite Hl. reflexivity.
Qed.

(** X16.  A request whose analysis succeeds stores the result, and the report
    of the same run looks up the suggested specialty, preceded by
    "hospital emergency" when the urgency is "Emergency"; the run goes on
    when the tables of these lookups render. *)
Theorem successful_analysis_is_looked_up
        (recording text : string) (r : TriageResponse) (lat lon : pyval)
        (s : state) :
  key_missing (GOOGLE_MAPS_API_KEY w) = false ->
  (String.eqb (urgency r) "Emergency" = true ->
   renders w pg lat lon "hospital emergency") ->
  renders w pg lat lon (suggested_specialty r) ->
  user_location s = Some (lat, lon) ->
  uploaded_file pg = Some recording ->
  analyze_clicked pg = true ->
  transcribe_audio w (tmp_name pg recording) (language_map (selected_language pg))
  = Return text ->
  contains "Error:" text = false ->
  get_ai_triage_analysis w text (language_name (selected_language pg))
  = IsTriage r ->
  exists s',
    (main_flow w pg ;;; report w pg) s = (Next tt, s')
    /\ analysis_result s' = Some r
    /\ user_location s' = Some (lat, lon)
    /\ lookups (log s')
       = lookups (log s)
           ++ (if String.eqb (urgency r) "Emergency"
               then ["hospital emergency"] else [])
           ++ [suggested_specialty r].
Proof.
  intros Hkey Hurgent Htable Hl Hu Hc Ht Hn Ha. unfold and_then.
  rewrite (main_flow_request w pg recording (lat, lon) s Hl Hu Hc).
  rewrite (request_succeeds w pg recording text r s Ht Hn Ha).
  match goal with
  | |- exists s', report w pg ?s1 = _ /\ _ =>
      destruct (report_outcome w pg s1 r lat lon Hkey Hurgent Htable eq_refl Hl)
        as (s' & H1 & H2 & H3 & H4)
  end.
  exists s'. rewrite H1. repeat split; try assumption.
  rewrite H4. simpl. rewrite lookups_app. simpl. rewrite app_nil_r. reflexivity.
Qed.

(** X17.  An exception of the recogniser other than the two that
    [transcribe_audio] handles is raised again and ends the run: the
    stored result has been cleared, and neither the analysis nor the
    report follows. *)
Theorem recogniser_error_ends_the_run
        (recording : string) (e : exn) (loc : pyval * pyval) (s : state) :
  user_location s = Some loc ->
  uploaded_file pg = Some recording ->
  analyze_clicked pg = true ->
  recognize w (tmp_name pg recording) (language_map (selected_language pg))
  = Raise e ->
  exn_cls e <> UnknownValueError ->
  exn_cls e <> RequestError ->
  transcribe_audio w (tmp_name pg recording) (language_map (selected_language pg))
  = Raise e
  /\ (main_flow w pg ;;; report w pg) s
     = (Crash e,
        {| analysis_result := None;
           user_location := Some loc;
           log := log s ++ [StatusUpdate Transcribing;
                            Call_transcribe_audio
                              (tmp_name pg recording)
                              (language_map (selected_language pg))] |}).
Proof.
  intros Hl Hu Hc Hrec H1 H2.
  assert (Ht : transcribe_audio w (tmp_name pg recording)
                                (language_map (selected_language pg)) = Raise e).
  { unfold transcribe_audio. rewrite Hrec.
    destruct (exn_cls e); try reflexivity; congruence. }
  split; [exact Ht|]. unfold and_then.
  rewrite (main_flow_request w pg recording loc s Hl Hu Hc).
  rewrite (request_crashes w pg recording e s Ht). rewrite Hl. reflexivity.
Qed.

(** X18.  When the recogniser cannot reach its service, [transcribe_audio]
    returns the text of that condition, which differs from the text for an
    unintelligible recording; the request ends with the status
    "Transcription Failed" and the run never calls the analysis. *)
Theorem unreachable_service_skips_analysis (recording : string) (e : exn) :
  uploaded_file pg = Some recording ->
  recognize w (tmp_name pg recording) (language_map (selected_language pg))
  = Raise e ->
  exn_cls e = RequestError ->
  transcribe_audio w (tmp_name pg recording) (language_map (selected_language pg))
  = Return "Error: API request failed. Check internet."
  /\ "Error: API request failed. Check internet."
     <> "Error: Could not understand the audio."
  /\ (forall s,
         analyze_symptoms w pg recording s
         = (Next tt,
            {| analysis_result := None;
               user_location := user_location s;
               log := log s ++ [StatusUpdate Transcribing;
                                Call_transcribe_audio
                                  (tmp_name pg recording)
                                  (language_map (selected_language pg));
                                StatusUpdate TranscriptionFailed;
                                StError "Error: API request failed. Check internet."] |}))
  /\ (forall analysis location,
         Forall not_analysis_call (log (snd (run w pg analysis location)))).
Proof.
  intros Hup Hrec Hcls.
  assert (Ht : transcribe_audio w (tmp_name pg recording)
                                (language_map (selected_language pg))
               = Return "Error: API request failed. Check internet.").
  { unfold transcribe_audio. rewrite Hrec, Hcls. reflexivity. }
  split; [exact Ht|]. split; [discriminate|]. split.
  - apply failed_transcription; [exact Ht | reflexivity].
  - apply (failed_transcription_run w pg recording _ Hup Ht). reflexivity.
Qed.

End AppProperties.

(* ================================================================== *)
(** * More runs of the model *)
(* ================================================================== *)

Section MoreRuns.

Import Main App Spec Facts MainFacts Runs AppFacts Sample.

(** The model's object lacks its explanation: the analysis returns a text. *)
Lemma analysis_failures_become_text_run :
  exists msg,
    get_ai_triage_analysis incomplete_world complaint "English (India)"
    = IsStr ("Error processing AI response: " ++ msg).
Proof.
  apply (proj2 (proj2 (analysis_failures_become_text
                         incomplete_world complaint "English (India)"))
               "{...}" incomplete_object eq_refl eq_refl).
  intros d Hd. inversion Hd; subst. exists "explanation".
  split; [simpl; auto | reflexivity].
Defined.

(** A candidate that is a text, not an object. *)
Lemma record_copies_the_candidate_run :
  place_entry ranked_world delhi_lat delhi_lon (PStr "closed")
  = Raise (Exn AttributeError "'str' object has no attribute 'get'").
Proof.
  apply (proj2 (record_copies_the_candidate
                  ranked_world delhi_lat delhi_lon (PStr "closed"))).
  intros d. discriminate.
Defined.

(** The second of three candidates has a text for latitude. *)
Lemma one_bad_candidate_fails_the_call_run :
  find_nearby_places_google mixed_world delhi_lat delhi_lon "dentist" 10000
  = Return (IsText ("An error occurred while parsing Google Maps data: "
                      ++ "must be real number, not str")).
Proof.
  apply (one_bad_candidate_fails_the_call
           mixed_world delhi_lat delhi_lon "dentist" 10000%Z
           [near] [far] broken (Exn TypeError "must be real number, not str")).
  - reflexivity.
  - do 2 eexists. repeat split; reflexivity.
  - intros q [<-|[]]. eexists. vm_compute. reflexivity.
  - vm_compute. reflexivity.
Defined.

(** The farther clinic comes first in the API's answer, the nearer one
    first in the frame. *)
Lemma nearest_place_first_run :
  exists df nearest rest,
    find_nearby_places_google ranked_world delhi_lat delhi_lon "dentist" 10000
    = Return (IsFrame df)
    /\ List.length (rows df) = List.length [far; near]
    /\ Permutation
         (map Distance_km (rows df))
         (map Distance_km
          [ {| Name := PStr "Far Clinic"; Address := PStr "Connaught Place";
               Rating := PStr "N/A";
               Distance_km := S754_finite false 7350849819933356 (-49) |};
            {| Name := PStr "Near Clinic"; Address := PStr "Connaught Place";
               Rating := PFloat (ratio 45 10);
               Distance_km := S754_finite false 6172426110798473 (-53) |} ])
    /\ Sorted (fun x y => na_last_le x y = true) (map Distance_km (rows df))
    /\ map Distance_km (rows df) = nearest :: rest
    /\ (forall r,
          In r
          [ {| Name := PStr "Far Clinic"; Address := PStr "Connaught Place";
               Rating := PStr "N/A";
               Distance_km := S754_finite false 7350849819933356 (-49) |};
            {| Name := PStr "Near Clinic"; Address := PStr "Connaught Place";
               Rating := PFloat (ratio 45 10);
               Distance_km := S754_finite false 6172426110798473 (-53) |} ] ->
          na_last_le nearest (Distance_km r) = true)
    /\ (Forall (fun r => is_nan (Distance_km r) = false)
          [ {| Name := PStr "Far Clinic"; Address := PStr "Connaught Place";
               Rating := PStr "N/A";
               Distance_km := S754_finite false 7350849819933356 (-49) |};
            {| Name := PStr "Near Clinic"; Address := PStr "Connaught Place";
               Rating := PFloat (ratio 45 10);
               Distance_km := S754_finite false 6172426110798473 (-53) |} ] ->
        Sorted (fun x y => SFleb x y = true) (map Distance_km (rows df))).
Proof.
  apply (nearest_place_first
           ranked_world delhi_lat delhi_lon "dentist" 10000%Z [far; near]).
  - reflexivity.
  - do 2 eexists. repeat split; reflexivity.
  - discriminate.
  - vm_compute. reflexivity.
  - vm_compute. reflexivity.
Defined.

(** Two candidates: the frame has rows.  No candidate: the frame is
    empty. *)
Lemma frame_empty_iff_no_candidates_run :
  (exists df,
      find_nearby_places_google ranked_world delhi_lat delhi_lon "dentist" 10000
      = Return (IsFrame df)
      /\ frame_empty df = false
      /\ (frame_empty df = true <-> truthy (PList [far; near]) = false))
  /\ (frame_empty empty_frame = true <-> truthy (PList []) = false).
Proof.
  split.
  - eexists. split; [vm_compute; reflexivity|]. split; [reflexivity|].
    apply (frame_empty_iff_no_candidates
             ranked_world delhi_lat delhi_lon "dentist" 10000%Z (PList [far; near])).
    + exact argsort_keeping_ties_sorts.
    + reflexivity.
    + do 2 eexists. repeat split; reflexivity.
    + vm_compute. reflexivity.
  - apply (frame_empty_iff_no_candidates
             empty_world delhi_lat delhi_lon "dentist" 10000%Z (PList [])
             empty_frame).
    + exact argsort_keeping_ties_sorts.
    + reflexivity.
    + do 2 eexists. repeat split; reflexivity.
    + reflexivity.
Defined.

(** Two visits from a session with a location and no result. *)
Lemma result_is_stored_with_a_location_run :
  located (fst (reruns [(ranked_world, visit); (unintelligible_world, visit)]
                       None (Some (delhi_lat, delhi_lon))))
          (snd (reruns [(ranked_world, visit); (unintelligible_world, visit)]
                       None (Some (delhi_lat, delhi_lon))))
  /\ (Some (delhi_lat, delhi_lon) <> None ->
      snd (reruns [(ranked_world, visit); (unintelligible_world, visit)]
                  None (Some (delhi_lat, delhi_lon))) <> None).
Proof.
  apply (result_is_stored_with_a_location
           [(ranked_world, visit); (unintelligible_world, visit)]
           None (Some (delhi_lat, delhi_lon))).
  intros H. exfalso. apply H. reflexivity.
Defined.

(** The page is shown again without a recording. *)
Lemma rerun_without_request_keeps_result_run :
  analysis_result
    (snd (run ranked_world (sample_page None false) (Some cardiology)
              (Some (delhi_lat, delhi_lon))))
  = Some cardiology.
Proof.
  apply (rerun_without_request_keeps_result
           ranked_world (sample_page None false)).
  left. reflexivity.
Defined.

(** The browser's component returns nothing, or a dict of [None]. *)
Lemma location_changes_only_in_sidebar_run :
  user_location (snd (run ranked_world visit None (Some (delhi_lat, delhi_lon))))
  = Some (delhi_lat, delhi_lon)
  /\ user_location
       (snd (run ranked_world (waiting_page (Some "RIFF-WAVE-recording") true)
                 None (Some (delhi_lat, delhi_lon))))
     = Some (delhi_lat, delhi_lon).
Proof.
  split.
  - apply (location_changes_only_in_sidebar ranked_world visit);
      [left; reflexivity | reflexivity].
  - apply (location_changes_only_in_sidebar
             ranked_world (waiting_page (Some "RIFF-WAVE-recording") true));
      [right; reflexivity | reflexivity].
Defined.

(** A recording is uploaded and the button pressed, with no location: the
    browser's component returns nothing, or a dict of [None]. *)
Lemma no_location_no_analysis_run :
  run ranked_world visit None None
  = (Next tt,
     {| analysis_result := None;
        user_location := None;
        log := [StWarning
                  "Please set your location in the sidebar to enable analysis.";
                StWarning disclaimer] |})
  /\ run ranked_world (waiting_page (Some "RIFF-WAVE-recording") true) None None
     = (Next tt,
        {| analysis_result := None;
           user_location := None;
           log := [StWarning
                     "Please set your location in the sidebar to enable analysis.";
                   StWarning disclaimer] |}).
Proof.
  split.
  - apply (no_location_no_analysis ranked_world visit);
      [reflexivity | left; reflexivity | reflexivity].
  - apply (no_location_no_analysis
             ranked_world (waiting_page (Some "RIFF-WAVE-recording") true));
      [reflexivity | right; reflexivity | reflexivity].
Defined.

(** The geocoder times out. *)
Lemma city_lookup_never_ends_the_run_run :
  exists msg,
    city_location city_page located_session
    = (Next tt, {| analysis_result := None;
                   user_location := Some (delhi_lat, delhi_lon);
                   log := [StError msg] |}).
Proof.
  apply (proj2 (city_lookup_never_ends_the_run city_page located_session)).
  - reflexivity.
  - intros lat lon. discriminate.
Defined.

(** The places request fails on the network. *)
Lemma failed_lookup_shows_no_results_run :
  show_places (offline ranked_world (Exn Timeout "Read timed out")) visit
              delhi_lat delhi_lon "Cardiologist" (no_doctors "Cardiologist")
              reported_session
  = (Next tt,
     {| analysis_result := Some cardiology;
        user_location := Some (delhi_lat, delhi_lon);
        log := [Call_find_nearby_places_google delhi_lat delhi_lon "Cardiologist";
                StWarning (no_doctors "Cardiologist")] |}).
Proof.
  apply (failed_lookup_shows_no_results
           (offline ranked_world (Exn Timeout "Read timed out")) visit
           delhi_lat delhi_lon "Cardiologist" (no_doctors "Cardiologist")
           reported_session).
  - reflexivity.
  - left. exists (Exn Timeout "Read timed out"). reflexivity.
Defined.

(** The stored result is an emergency.  Where every clinic found has a
    rating, the two tables render and there are two lookups.  Where a
    clinic has none, the text 'N/A' does not take the format of the
    rating column: the run ends at the first table. *)
Lemma report_lookups_run :
  (exists s',
      report rated_world visit reported_session = (Next tt, s')
      /\ analysis_result s' = Some cardiology
      /\ user_location s' = Some (delhi_lat, delhi_lon)
      /\ lookups (log s') = ["hospital emergency"; "Cardiologist"])
  /\ (exists s',
        report ranked_world visit reported_session
        = (Crash (Exn ValueError
                      "Unknown format code 'f' for object of type 'str'"), s')
        /\ analysis_result s' = Some cardiology
        /\ user_location s' = Some (delhi_lat, delhi_lon)
        /\ lookups (log s') = ["hospital emergency"]).
Proof.
  split.
  - apply (proj1 (report_lookups rated_world visit reported_session cardiology
                                 delhi_lat delhi_lon eq_refl eq_refl eq_refl)).
    + intros _ df F E. vm_compute in F. inversion F; subst. reflexivity.
    + intros df F E. vm_compute in F. inversion F; subst. reflexivity.
  - eapply (proj2 (report_lookups ranked_world visit reported_session cardiology
                                  delhi_lat delhi_lon eq_refl eq_refl eq_refl)
                  _ _ eq_refl).
    + vm_compute. reflexivity.
    + reflexivity.
    + vm_compute. reflexivity.
Defined.

(** The model's object is incomplete: the request fails and nothing is
    looked up. *)
Lemma failed_analysis_clears_result_run :
  exists msg,
    (main_flow incomplete_world visit ;;; report incomplete_world visit)
      reported_session
    = (Next tt,
       {| analysis_result := None;
          user_location := Some (delhi_lat, delhi_lon);
          log := [StatusUpdate Transcribing;
                  Call_transcribe_audio "/tmp/tmpvoicedoc.wav" "en-IN";
                  StatusUpdate AnalyzingSymptoms;
                  Call_get_ai_triage_analysis complaint "English (India)";
                  StatusUpdate AnalysisFailed;
                  StError msg] |}).
Proof.
  eexists.
  apply (failed_analysis_clears_result
           incomplete_world visit "RIFF-WAVE-recording" complaint _
           (delhi_lat, delhi_lon) reported_session); reflexivity.
Defined.

(** The complaint is analysed as an emergency and looked up at once; the
    clinic found has a rating. *)
Lemma successful_analysis_is_looked_up_run :
  exists s',
    (main_flow rated_world visit ;;; report rated_world visit) located_session
    = (Next tt, s')
    /\ analysis_result s' = Some cardiology
    /\ user_location s' = Some (delhi_lat, delhi_lon)
    /\ lookups (log s') = ["hospital emergency"; "Cardiologist"].
Proof.
  apply (successful_analysis_is_looked_up
           rated_world visit "RIFF-WAVE-recording" complaint cardiology
           delhi_lat delhi_lon located_session); try reflexivity.
  - intros _ df F E. vm_compute in F. inversion F; subst. reflexivity.
  - intros df F E. vm_compute in F. inversion F; subst. reflexivity.
Defined.

(** The upload is not a WAV file: the recogniser's [ValueError] ends the
    run. *)
Lemma recogniser_error_ends_the_run_run :
  transcribe_audio unreadable_world "/tmp/tmpvoicedoc.wav" "en-IN"
  = Raise (Exn ValueError "Audio file could not be read as PCM WAV")
  /\ (main_flow unreadable_world visit ;;; report unreadable_world visit)
       reported_session
     = (Crash (Exn ValueError "Audio file could not be read as PCM WAV"),
        {| analysis_result := None;
           user_location := Some (delhi_lat, delhi_lon);
           log := [StatusUpdate Transcribing;
                   Call_transcribe_audio "/tmp/tmpvoicedoc.wav" "en-IN"] |}).
Proof.
  apply (recogniser_error_ends_the_run
           unreadable_world visit "RIFF-WAVE-recording"
           (Exn ValueError "Audio file could not be read as PCM WAV")
           (delhi_lat, delhi_lon) reported_session);
    try reflexivity; discriminate.
Defined.

(** The recogniser cannot reach its service. *)
Lemma unreachable_service_skips_analysis_run :
  transcribe_audio unreachable_world "/tmp/tmpvoicedoc.wav" "en-IN"
  = Return "Error: API request failed. Check internet."
  /\ "Error: API request failed. Check internet."
     <> "Error: Could not understand the audio."
  /\ (forall s,
         analyze_symptoms unreachable_world visit "RIFF-WAVE-recording" s
         = (Next tt,
            {| analysis_result := None;
               user_location := user_location s;
               log := log s ++ [StatusUpdate Transcribing;
                                Call_transcribe_audio "/tmp/tmpvoicedoc.wav" "en-IN";
                                StatusUpdate TranscriptionFailed;
                                StError "Error: API request failed. Check internet."] |}))
  /\ (forall analysis location,
         Forall not_analysis_call
                (log (snd (run unreachable_world visit analysis location)))).
Proof.
  apply (unreachable_service_skips_analysis
           unreachable_world visit "RIFF-WAVE-recording"
           (Exn RequestError "recognition connection failed")); reflexivity.
Defined.

End MoreRuns.
